(** * pdf-encrypt-decrypt: the native engine (src/main.go) and its
    JavaScript wrapper (index.js), embedded and verified.

    Go strings and JavaScript strings are byte strings ([string]); a PDF
    buffer is a [list byte]; pdfcpu's permission flags are integers ([Z])
    combined with [Z.lor].  Of the libraries the repository calls and does
    not contain, Go's [encoding/json] (for a slice of strings),
    [encoding/base64] and the ASCII path of [strings.ToLower] are written
    out; pdfcpu, the Unicode tables behind [strings.ToLower], koffi and
    Node's [path], [JSON] and [Buffer] are fields of classes, so every
    theorem holds for every behaviour of those. *)

From Stdlib Require Import String Ascii List ZArith NArith Bool Lia Permutation.
From Stdlib Require Import Strings.Byte.
Import ListNotations.
Local Open Scope string_scope.
Local Open Scope list_scope.

(** ** Go's [strings] package, as far as main.go uses it *)
Module GoStrings.

(** [c < utf8.RuneSelf] *)
Definition isASCIIByte (c : ascii) : bool := (N_of_ascii c <? 128)%N.

(** ['A' <= c && c <= 'Z'] *)
Definition isUpperByte (c : ascii) : bool :=
  ((65 <=? N_of_ascii c) && (N_of_ascii c <=? 90))%N.

(** [c += 'a' - 'A'] on an upper-case byte, any other byte unchanged *)
Definition lowerByte (c : ascii) : ascii :=
  if isUpperByte c then ascii_of_N (N_of_ascii c + 32) else c.

Fixpoint isASCII (s : string) : bool :=
  match s with
  | EmptyString => true
  | String c r => isASCIIByte c && isASCII r
  end.

Fixpoint lowerASCII (s : string) : string :=
  match s with
  | EmptyString => EmptyString
  | String c r => String (lowerByte c) (lowerASCII r)
  end.

(** The part of Go's runtime library that main.go relies on and that is
    not written out here. *)
Class Runtime := {
  (** [strings.Map(unicode.ToLower, s)]: the path [strings.ToLower] takes
      for a string that holds a byte [>= utf8.RuneSelf]; it consults the
      Unicode case tables. *)
  unicode_ToLower_Map : string -> string
}.

(** [strings.ToLower]: ASCII-only strings are lower-cased byte by byte,
    every other string goes through the Unicode mapping. *)
Definition ToLower `{Runtime} (s : string) : string :=
  if isASCII s then lowerASCII s else unicode_ToLower_Map s.

End GoStrings.
Export GoStrings.

(** ** Go's [encoding/base64]: [StdEncoding], with padding *)
Module GoBase64.

Definition encodeStd : string :=
  "ABCDEFGHIJKLMNOPQRSTUVWXYZabcdefghijklmnopqrstuvwxyz0123456789+/".

Definition padChar : ascii := ascii_of_N 61.

(** The character for a six-bit value. *)
Definition digit (n : N) : ascii :=
  match String.get (N.to_nat (N.land n 63)) encodeStd with
  | Some c => c
  | None => padChar
  end.

(** Three bytes give four characters; one or two bytes left over give
    two or three characters and padding. *)
Fixpoint Encode (src : list byte) : string :=
  match src with
  | [] => EmptyString
  | [a] =>
      let v := N.shiftl (Byte.to_N a) 16 in
      String (digit (N.shiftr v 18)) (String (digit (N.shiftr v 12))
        (String padChar (String padChar EmptyString)))
  | [a; b] =>
      let v := N.lor (N.shiftl (Byte.to_N a) 16) (N.shiftl (Byte.to_N b) 8) in
      String (digit (N.shiftr v 18)) (String (digit (N.shiftr v 12))
        (String (digit (N.shiftr v 6)) (String padChar EmptyString)))
  | a :: b :: c :: rest =>
      let v := N.lor (N.lor (N.shiftl (Byte.to_N a) 16) (N.shiftl (Byte.to_N b) 8))
                 (Byte.to_N c) in
      String (digit (N.shiftr v 18)) (String (digit (N.shiftr v 12))
        (String (digit (N.shiftr v 6)) (String (digit v) (Encode rest))))
  end.

End GoBase64.

(** ** pdfcpu, as far as main.go uses it *)
Module Pdfcpu.

(** [model.PermissionFlags] *)
Definition PermissionFlags := Z.

(** Go's [error], by the text [%v] prints for it. *)
Definition error := string.

(** [model.Configuration], with the fields main.go reads or writes and the
    two that [NewAESConfiguration] sets. *)
Record Configuration := {
  UserPW : string;
  OwnerPW : string;
  EncryptUsingAES : bool;
  EncryptKeyLength : Z;
  Permissions : PermissionFlags
}.

Definition set_UserPW (pw : string) (c : Configuration) : Configuration :=
  {| UserPW := pw; OwnerPW := OwnerPW c; EncryptUsingAES := EncryptUsingAES c;
     EncryptKeyLength := EncryptKeyLength c; Permissions := Permissions c |}.

Definition set_OwnerPW (pw : string) (c : Configuration) : Configuration :=
  {| UserPW := UserPW c; OwnerPW := pw; EncryptUsingAES := EncryptUsingAES c;
     EncryptKeyLength := EncryptKeyLength c; Permissions := Permissions c |}.

Definition set_Permissions (m : PermissionFlags) (c : Configuration) : Configuration :=
  {| UserPW := UserPW c; OwnerPW := OwnerPW c; EncryptUsingAES := EncryptUsingAES c;
     EncryptKeyLength := EncryptKeyLength c; Permissions := m |}.

(** The library itself: its flag constants, its default configuration and
    its two operations.  [api.Decrypt] receives a pointer to the
    configuration, so it hands back the configuration as it left it. *)
Class Library := {
  PermissionPrintRev3 : PermissionFlags;
  PermissionExtract : PermissionFlags;
  PermissionModAnnFillForm : PermissionFlags;
  PermissionFillRev3 : PermissionFlags;
  PermissionAssembleRev3 : PermissionFlags;
  PermissionsAll : PermissionFlags;
  PermissionModify : PermissionFlags;
  PermissionsNone : PermissionFlags;
  NewDefaultConfiguration : Configuration;
  api_Encrypt : list byte -> Configuration -> error + list byte;
  api_Decrypt : list byte -> Configuration -> Configuration * (error + list byte)
}.

(** Modelled from the spec: pdfcpu's [model.NewAESConfiguration], which is
    not part of the repository.  It "build[s] an AES encryption
    configuration with key length [...], user password, and owner
    password" on the library's default configuration, whose permission
    mask is "the configuration's built-in default". *)
Definition NewAESConfiguration `{Library} (userPW ownerPW : string) (keyLength : Z)
  : Configuration :=
  {| UserPW := userPW; OwnerPW := ownerPW; EncryptUsingAES := true;
     EncryptKeyLength := keyLength;
     Permissions := Permissions NewDefaultConfiguration |}.

End Pdfcpu.
Export Pdfcpu.

(** ** Go's [encoding/json], for a destination of type [[]string]

    [json.Unmarshal] first checks that the whole input is one JSON text
    (RFC 8259, at most 10000 nested arrays and objects) and only then
    stores it.  The check is a lexer that reads the input byte by byte,
    followed by a push-down parser over the tokens; both are structural
    recursions, so they run on every input. *)
Module GoJSON.

Inductive token :=
| TLBracket | TRBracket | TLBrace | TRBrace | TComma | TColon
| TString (raw : string)
| TNumber (lit : string)
| TTrue | TFalse | TNull.

(** Where the lexer stands inside a number: an optional minus sign; a
    zero, or a digit from 1 to 9 and any digits; optionally a dot and one
    digit or more; optionally e or E, an optional sign and one digit or
    more. *)
Inductive numstate := NNeg | NZero | NInt | NDot | NFrac | NE | NESign | NExp.

Inductive lexstate :=
| LIdle
| LString (acc : list ascii)
| LEscape (acc : list ascii)
| LHex (todo : nat) (acc : list ascii)
| LNumber (st : numstate) (acc : list ascii)
| LLiteral (rest : string) (t : token).

Definition byte_is (c : ascii) (n : N) : bool := (N_of_ascii c =? n)%N.

Definition byte_in (c : ascii) (lo hi : N) : bool :=
  ((lo <=? N_of_ascii c) && (N_of_ascii c <=? hi))%N.

(** space, tab, carriage return, line feed *)
Definition isSpace (c : ascii) : bool :=
  byte_is c 32 || byte_is c 9 || byte_is c 13 || byte_is c 10.

Definition isDigit (c : ascii) : bool := byte_in c 48 57.

Definition isHex (c : ascii) : bool :=
  byte_in c 48 57 || byte_in c 97 102 || byte_in c 65 70.

Definition text (acc : list ascii) : string := string_of_list_ascii (rev acc).

(** A byte met between two tokens. *)
Definition lex_idle (c : ascii) : option (lexstate * list token) :=
  if isSpace c then Some (LIdle, [])
  else if byte_is c 91 then Some (LIdle, [TLBracket])
  else if byte_is c 93 then Some (LIdle, [TRBracket])
  else if byte_is c 123 then Some (LIdle, [TLBrace])
  else if byte_is c 125 then Some (LIdle, [TRBrace])
  else if byte_is c 44 then Some (LIdle, [TComma])
  else if byte_is c 58 then Some (LIdle, [TColon])
  else if byte_is c 34 then Some (LString [], [])
  else if byte_is c 45 then Some (LNumber NNeg [c], [])
  else if byte_is c 48 then Some (LNumber NZero [c], [])
  else if byte_in c 49 57 then Some (LNumber NInt [c], [])
  else if byte_is c 116 then Some (LLiteral "rue" TTrue, [])
  else if byte_is c 102 then Some (LLiteral "alse" TFalse, [])
  else if byte_is c 110 then Some (LLiteral "ull" TNull, [])
  else None.

(** The number goes on with byte [c]. *)
Definition num_step (st : numstate) (c : ascii) : option numstate :=
  let isE := byte_is c 101 || byte_is c 69 in
  let isDot := byte_is c 46 in
  match st with
  | NNeg => if byte_is c 48 then Some NZero
            else if byte_in c 49 57 then Some NInt else None
  | NZero => if isDot then Some NDot else if isE then Some NE else None
  | NInt => if isDigit c then Some NInt
            else if isDot then Some NDot else if isE then Some NE else None
  | NDot => if isDigit c then Some NFrac else None
  | NFrac => if isDigit c then Some NFrac else if isE then Some NE else None
  | NE => if byte_is c 43 || byte_is c 45 then Some NESign
          else if isDigit c then Some NExp else None
  | NESign => if isDigit c then Some NExp else None
  | NExp => if isDigit c then Some NExp else None
  end.

(** The number may end here. *)
Definition num_done (st : numstate) : bool :=
  match st with
  | NZero | NInt | NFrac | NExp => true
  | NNeg | NDot | NE | NESign => false
  end.

Definition lex_step (st : lexstate) (c : ascii) : option (lexstate * list token) :=
  match st with
  | LIdle => lex_idle c
  | LString acc =>
      if byte_is c 34 then Some (LIdle, [TString (text acc)])
      else if byte_is c 92 then Some (LEscape (c :: acc), [])
      else if (N_of_ascii c <? 32)%N then None
      else Some (LString (c :: acc), [])
  | LEscape acc =>
      if byte_is c 117 then Some (LHex 4 (c :: acc), [])
      else if byte_is c 98 || byte_is c 102 || byte_is c 110 || byte_is c 114
              || byte_is c 116 || byte_is c 92 || byte_is c 47 || byte_is c 34
      then Some (LString (c :: acc), [])
      else None
  | LHex todo acc =>
      if isHex c then
        match todo with
        | S (S n) => Some (LHex (S n) (c :: acc), [])
        | _ => Some (LString (c :: acc), [])
        end
      else None
  | LNumber ns acc =>
      match num_step ns c with
      | Some ns' => Some (LNumber ns' (c :: acc), [])
      | None =>
          if num_done ns then
            match lex_idle c with
            | Some (st', ts) => Some (st', TNumber (text acc) :: ts)
            | None => None
            end
          else None
      end
  | LLiteral rest t =>
      match rest with
      | String c' EmptyString => if Ascii.eqb c c' then Some (LIdle, [t]) else None
      | String c' rest' => if Ascii.eqb c c' then Some (LLiteral rest' t, []) else None
      | EmptyString => None
      end
  end.

Definition lex_end (st : lexstate) : option (list token) :=
  match st with
  | LIdle => Some []
  | LNumber ns acc => if num_done ns then Some [TNumber (text acc)] else None
  | _ => None
  end.

Fixpoint lex (st : lexstate) (s : string) : option (list token) :=
  match s with
  | EmptyString => lex_end st
  | String c r =>
      match lex_step st c with
      | Some (st', ts) =>
          match lex st' r with
          | Some ts' => Some (ts ++ ts')
          | None => None
          end
      | None => None
      end
  end.

(** *** String literals: [unquote]

    The lexer has accepted the literal, so every backslash is followed by
    one of the escapes of JSON.  Bytes that are not well-formed UTF-8 are
    replaced by U+FFFD, as is a [\u] escape that names half a surrogate
    pair. *)

Definition RuneError : N := 65533.

Definition chr (n : N) : ascii := ascii_of_N n.

(** [utf8.EncodeRune] *)
Definition EncodeRune (r : N) : string :=
  let cont (k : N) := chr (N.lor 128 (N.land (N.shiftr r k) 63)) in
  if (r <? 128)%N then String (chr r) EmptyString
  else if (r <? 2048)%N then
    String (chr (N.lor 192 (N.shiftr r 6))) (String (cont 0%N) EmptyString)
  else if ((55296 <=? r) && (r <? 57344) || (1114111 <? r))%N then
    String (chr 239) (String (chr 191) (String (chr 189) EmptyString))
  else if (r <? 65536)%N then
    String (chr (N.lor 224 (N.shiftr r 12)))
      (String (cont 6%N) (String (cont 0%N) EmptyString))
  else
    String (chr (N.lor 240 (N.shiftr r 18)))
      (String (cont 12%N) (String (cont 6%N) (String (cont 0%N) EmptyString))).

Definition hexval (c : ascii) : option N :=
  let n := N_of_ascii c in
  if byte_in c 48 57 then Some (n - 48)%N
  else if byte_in c 97 102 then Some (n - 87)%N
  else if byte_in c 65 70 then Some (n - 55)%N
  else None.

(** The four hex digits of a [\u] escape. *)
Definition getu4 (a b c d : ascii) : option N :=
  match hexval a, hexval b, hexval c, hexval d with
  | Some x, Some y, Some z, Some w => Some (4096 * x + 256 * y + 16 * z + w)%N
  | _, _, _, _ => None
  end.

(** [utf16.IsSurrogate] *)
Definition IsSurrogate (r : N) : bool := ((55296 <=? r) && (r <? 57344))%N.

(** [utf16.DecodeRune], [None] standing for U+FFFD *)
Definition utf16_DecodeRune (r1 r2 : N) : option N :=
  if ((55296 <=? r1) && (r1 <? 56320) && (56320 <=? r2) && (r2 <? 57344))%N
  then Some (N.lor (N.shiftl (r1 - 55296) 10) (r2 - 56320) + 65536)%N
  else None.

(** Length of the well-formed UTF-8 sequence that starts with the
    non-ASCII byte [c] and goes on in [r]; [0] when there is none. *)
Definition utf8_length (c : ascii) (r : string) : nat :=
  let tail (x : ascii) := byte_in x 128 191 in
  match r with
  | String c2 r2 =>
      if byte_in c 194 223 then (if tail c2 then 2 else 0)%nat
      else
        let second3 :=
          (byte_is c 224 && byte_in c2 160 191)
          || (byte_in c 225 236 && tail c2)
          || (byte_is c 237 && byte_in c2 128 159)
          || (byte_in c 238 239 && tail c2) in
        let second4 :=
          (byte_is c 240 && byte_in c2 144 191)
          || (byte_in c 241 243 && tail c2)
          || (byte_is c 244 && byte_in c2 128 143) in
        match r2 with
        | String c3 r3 =>
            if second3 then (if tail c3 then 3 else 0)%nat
            else if second4 then
              match r3 with
              | String c4 _ => (if tail c3 && tail c4 then 4 else 0)%nat
              | EmptyString => 0%nat
              end
            else 0%nat
        | EmptyString => 0%nat
        end
  | EmptyString => 0%nat
  end.

(** The byte an escape letter stands for: b, f, n, r, t; a quote, a
    backslash and a slash stand for themselves. *)
Definition escaped (e : ascii) : ascii :=
  if byte_is e 98 then chr 8
  else if byte_is e 102 then chr 12
  else if byte_is e 110 then chr 10
  else if byte_is e 114 then chr 13
  else if byte_is e 116 then chr 9
  else e.

Definition replacement : string := EncodeRune RuneError.

Fixpoint unquote (s : string) : string :=
  match s with
  | EmptyString => EmptyString
  | String c r =>
      if byte_is c 92 then
        match r with
        | String e r1 =>
            if byte_is e 117 then
              match r1 with
              | String h1 (String h2 (String h3 (String h4 r2))) =>
                  match getu4 h1 h2 h3 h4 with
                  | Some rr =>
                      if IsSurrogate rr then
                        match r2 with
                        | String b (String u (String k1 (String k2 (String k3 (String k4 r3))))) =>
                            let rr1 :=
                              if byte_is b 92 && byte_is u 117
                              then getu4 k1 k2 k3 k4 else None in
                            match rr1 with
                            | Some low =>
                                match utf16_DecodeRune rr low with
                                | Some dec => EncodeRune dec ++ unquote r3
                                | None => replacement ++ unquote r2
                                end
                            | None => replacement ++ unquote r2
                            end
                        | _ => replacement ++ unquote r2
                        end
                      else EncodeRune rr ++ unquote r2
                  | None => EmptyString
                  end
              | _ => EmptyString
              end
            else String (escaped e) (unquote r1)
        | EmptyString => EmptyString
        end
      else if isASCIIByte c then String c (unquote r)
      else
        match utf8_length c r, r with
        | 2%nat, String c2 r2 => String c (String c2 (unquote r2))
        | 3%nat, String c2 (String c3 r3) =>
            String c (String c2 (String c3 (unquote r3)))
        | 4%nat, String c2 (String c3 (String c4 r4)) =>
            String c (String c2 (String c3 (String c4 (unquote r4))))
        | _, _ => replacement ++ unquote r
        end
  end.

(** *** The parser over tokens *)

#[warnings="-register-all"]
Inductive value :=
| Null
| Bool (b : bool)
| Number (lit : string)
| Str (s : string)
| Array (elems : list value)
| Object (members : list (string * value)).

(** An array or object that is still open, with what it holds so far
    (latest first) and, for an object, the key whose value is awaited. *)
Inductive frame :=
| InArray (elems : list value)
| InObject (members : list (string * value)) (key : option string).

Inductive expect :=
| EValue          (* a value *)
| EValueOrClose   (* the first element of an array, or its end *)
| EKeyOrClose     (* the first key of an object, or its end *)
| EKey            (* a key, after a comma *)
| EColon
| ECommaOrClose   (* after an element or a member *)
| EEnd (v : value).

Definition pstate : Type := list frame * expect.

Definition maxNestingDepth : N := 10000.

(** One more array or object may be opened. *)
Definition may_push (stack : list frame) : bool :=
  (N.of_nat (length stack) <? maxNestingDepth)%N.

(** A value is complete: it is the text itself, or goes into the array or
    object around it. *)
Definition finish (v : value) (stack : list frame) : option pstate :=
  match stack with
  | [] => Some ([], EEnd v)
  | InArray es :: st => Some (InArray (v :: es) :: st, ECommaOrClose)
  | InObject ms (Some k) :: st => Some (InObject ((k, v) :: ms) None :: st, ECommaOrClose)
  | InObject _ None :: _ => None
  end.

Definition begin_value (stack : list frame) (t : token) : option pstate :=
  match t with
  | TString raw => finish (Str (unquote raw)) stack
  | TNumber lit => finish (Number lit) stack
  | TTrue => finish (Bool true) stack
  | TFalse => finish (Bool false) stack
  | TNull => finish Null stack
  | TLBracket =>
      if may_push stack then Some (InArray [] :: stack, EValueOrClose) else None
  | TLBrace =>
      if may_push stack then Some (InObject [] None :: stack, EKeyOrClose) else None
  | _ => None
  end.

Definition begin_key (stack : list frame) (t : token) : option pstate :=
  match t, stack with
  | TString raw, InObject ms None :: st =>
      Some (InObject ms (Some (unquote raw)) :: st, EColon)
  | _, _ => None
  end.

Definition pstep (ps : pstate) (t : token) : option pstate :=
  let '(stack, e) := ps in
  match e with
  | EValue => begin_value stack t
  | EValueOrClose =>
      match t, stack with
      | TRBracket, InArray [] :: st => finish (Array []) st
      | _, _ => begin_value stack t
      end
  | EKeyOrClose =>
      match t, stack with
      | TRBrace, InObject [] None :: st => finish (Object []) st
      | _, _ => begin_key stack t
      end
  | EKey => begin_key stack t
  | EColon => match t with TColon => Some (stack, EValue) | _ => None end
  | ECommaOrClose =>
      match t, stack with
      | TComma, InArray _ :: _ => Some (stack, EValue)
      | TRBracket, InArray es :: st => finish (Array (rev es)) st
      | TComma, InObject _ None :: _ => Some (stack, EKey)
      | TRBrace, InObject ms None :: st => finish (Object (rev ms)) st
      | _, _ => None
      end
  | EEnd _ => None
  end.

Fixpoint parse_tokens (ps : pstate) (ts : list token) : option value :=
  match ts with
  | [] => match ps with ([], EEnd v) => Some v | _ => None end
  | t :: ts' =>
      match pstep ps t with
      | Some ps' => parse_tokens ps' ts'
      | None => None
      end
  end.

(** The JSON text [data] read as a value; [None] is a syntax error. *)
Definition parse (data : string) : option value :=
  match lex LIdle data with
  | Some ts => parse_tokens ([], EValue) ts
  | None => None
  end.

(** *** Storing into a [[]string] *)

Inductive UnmarshalError :=
| SyntaxError
| UnmarshalTypeError (Value : string).

(** A JSON value stored into one element of the slice, a Go [string] that
    is still the empty string: a string is stored, [null] changes nothing,
    and anything else is a type error that leaves the element empty. *)
Definition store_element (v : value) : string * option UnmarshalError :=
  match v with
  | Str s => (s, None)
  | Null => ("", None)
  | Bool _ => ("", Some (UnmarshalTypeError "bool"))
  | Number _ => ("", Some (UnmarshalTypeError "number"))
  | Array _ => ("", Some (UnmarshalTypeError "array"))
  | Object _ => ("", Some (UnmarshalTypeError "object"))
  end.

(** The decoder keeps the first error it met and goes on. *)
Fixpoint first_error (es : list (option UnmarshalError)) : option UnmarshalError :=
  match es with
  | [] => None
  | Some e :: _ => Some e
  | None :: r => first_error r
  end.

(** [json.Unmarshal(data, &v)] for [var v []string]: the slice left in [v]
    (a nil slice is the empty list) and the error returned.  A syntax
    error is found before anything is stored.  An array is stored element
    by element; [null] stores the nil slice; any other value is a type
    error that leaves [v] as it was. *)
Definition Unmarshal (data : string) : list string * option UnmarshalError :=
  match parse data with
  | None => ([], Some SyntaxError)
  | Some (Array elems) =>
      let stored := map store_element elems in
      (map fst stored, first_error (map snd stored))
  | Some Null => ([], None)
  | Some (Str _) => ([], Some (UnmarshalTypeError "string"))
  | Some (Number _) => ([], Some (UnmarshalTypeError "number"))
  | Some (Bool _) => ([], Some (UnmarshalTypeError "bool"))
  | Some (Object _) => ([], Some (UnmarshalTypeError "object"))
  end.

End GoJSON.

(** ** src/main.go *)
Module Native.

Section Main.
Context `{GoStrings.Runtime} `{Pdfcpu.Library}.

Definition PDFPermission := string.

Definition PermPrint : PDFPermission := "print".
Definition PermCopy : PDFPermission := "copy".
Definition PermModify : PDFPermission := "modify".
Definition PermAnnotate : PDFPermission := "annotate".
Definition PermForms : PDFPermission := "forms".
Definition PermAssemble : PDFPermission := "assemble".
Definition PermAll : PDFPermission := "all".
Definition PermDefault : PDFPermission := "default".

(** The body of the loop of [buildPermissionMask]: the [switch] on the
    lower-cased token, in the order of its cases. *)
Definition mask_step (mask : PermissionFlags) (p : string) : PermissionFlags :=
  let k : PDFPermission := ToLower p in
  if String.eqb k PermPrint then Z.lor mask PermissionPrintRev3
  else if String.eqb k PermCopy then Z.lor mask PermissionExtract
  else if String.eqb k PermAnnotate then Z.lor mask PermissionModAnnFillForm
  else if String.eqb k PermForms then Z.lor mask PermissionFillRev3
  else if String.eqb k PermAssemble then Z.lor mask PermissionAssembleRev3
  else if String.eqb k PermAll then Z.lor mask PermissionsAll
  else if String.eqb k PermModify then Z.lor mask PermissionModify
  else if String.eqb k PermDefault then Z.lor mask PermissionsNone
  else mask.

Definition buildPermissionMask (perms : list string) : PermissionFlags :=
  fold_left mask_step perms 0%Z.

(** The flag [setCustomPerms] of [EncryptPDF]. *)
Definition setCustomPerms (permissions : list string) : bool :=
  if (0 <? length permissions)%nat then
    if (length permissions =? 1)%nat
       && String.eqb (ToLower (nth 0 permissions "")) "default"
    then false
    else true
  else false.

(** The configuration [EncryptPDF] hands to [api.Encrypt], from the
    passwords and the decoded permission list. *)
Definition EncryptPDF_conf (userPw ownerPw : string) (permissions : list string)
  : Configuration :=
  let keyLength := 256%Z in
  let conf := NewAESConfiguration userPw ownerPw keyLength in
  if setCustomPerms permissions
  then set_Permissions (buildPermissionMask permissions) conf
  else conf.

(** A call into pdfcpu, with the bytes and the configuration it is given. *)
Inductive call :=
| Encrypt (pdfBytes : list byte) (conf : Configuration)
| Decrypt (pdfBytes : list byte) (conf : Configuration).

(** [EncryptPDF], from the Go values of its arguments: the calls it makes
    into pdfcpu and the text it returns.  The error of [json.Unmarshal] is
    not looked at. *)
Definition EncryptPDF (pdfBytes : list byte) (userPw ownerPw permissionsJSON : string)
  : list call * string :=
  let permissions := fst (GoJSON.Unmarshal permissionsJSON) in
  let conf := EncryptPDF_conf userPw ownerPw permissions in
  ([Encrypt pdfBytes conf],
   match api_Encrypt pdfBytes conf with
   | inl err => ("Error encrypting PDF: " ++ err)%string
   | inr encodedOutput => GoBase64.Encode encodedOutput
   end).

Definition failed (r : error + list byte) : bool :=
  match r with inl _ => true | inr _ => false end.

(** [DecryptPDF]: the calls it makes into pdfcpu and the text it returns.
    The second attempt updates the configuration the first one used. *)
Definition DecryptPDF (pdfBytes : list byte) (password ownerPw : string)
  : list call * string :=
  let conf := set_OwnerPW password (set_UserPW password NewDefaultConfiguration) in
  let '(conf1, err) := api_Decrypt pdfBytes conf in
  let '(calls, err) :=
    if failed err && negb (String.eqb ownerPw "") && negb (String.eqb ownerPw password)
    then
      let conf2 := set_OwnerPW ownerPw (set_UserPW ownerPw conf1) in
      ([Decrypt pdfBytes conf; Decrypt pdfBytes conf2], snd (api_Decrypt pdfBytes conf2))
    else ([Decrypt pdfBytes conf], err) in
  (calls,
   match err with
   | inl e => ("Error decrypting PDF: " ++ e)%string
   | inr encodedOutput => GoBase64.Encode encodedOutput
   end).

End Main.

End Native.

(** ** index.js *)
Module Wrapper.

(** [PDFPermission], the exported table. *)
Definition PRINT := "print".
Definition COPY := "copy".
Definition ANNOTATE := "annotate".
Definition MODIFY := "modify".
Definition FORMS := "forms".
Definition ASSEMBLE := "assemble".
Definition ALL := "all".
Definition DEFAULT := "default".

(** How a JavaScript function ends: it returns, or [throw new Error(message)]. *)
Inductive completion (A : Type) :=
| Return (a : A)
| Throw (message : string).
Arguments Return {A} a.
Arguments Throw {A} message.

(** An argument of [console.log] or [console.error]. *)
Inductive logged :=
| Text (s : string)
| Num (n : Z)
| Err (message : string).

(** What a run does that can be seen from outside, in order. *)
Inductive event :=
| console_log (args : list logged)
| console_error (args : list logged)
| call_EncryptPDF (pdfBuffer : list byte) (pdfBufferSize : Z)
    (userPw ownerPw permissions : string)
| call_DecryptPDF (pdfBuffer : list byte) (pdfBufferSize : Z)
    (password ownerPw : string)
| Buffer_from (text : string).

(** A parameter with a default value: the default stands in when the
    argument is left out or is [undefined], here [None]. *)
Definition default_arg {A : Type} (default : A) (arg : option A) : A :=
  match arg with
  | Some a => a
  | None => default
  end.

(** A computation: the events so far and how it ended. *)
Definition js (A : Type) : Type := list event * completion A.

Definition ret {A : Type} (a : A) : js A := ([], Return a).

Definition throw {A : Type} (message : string) : js A := ([], Throw message).

Definition bind {A B : Type} (m : js A) (k : A -> js B) : js B :=
  match m with
  | (t, Return a) => let '(t', r) := k a in (t ++ t', r)
  | (t, Throw e) => (t, Throw e)
  end.

(** [try { body } catch (err) { handler err }] *)
Definition try_catch {A : Type} (body : js A) (handler : string -> js A) : js A :=
  match body with
  | (t, Throw e) => let '(t', r) := handler e in (t ++ t', r)
  | (t, Return a) => (t, Return a)
  end.

Notation "x <- m ;; k" := (bind m (fun x => k))
  (at level 61, m at next level, right associativity).
Notation "m ;;; k" := (bind m (fun _ => k))
  (at level 61, right associativity).

(** What index.js gets from Node and from koffi.  [EncryptPDF] and
    [DecryptPDF] are the two functions bound with [lib.func]; a [char *]
    result that is NULL comes back as [null], here [None]. *)
Class Host := {
  dirname : string;
  path_resolve : list string -> string;
  JSON_stringify : list string -> string;
  Buffer_from_base64 : string -> list byte;
  EncryptPDF : list byte -> Z -> string -> string -> string -> option string;
  DecryptPDF : list byte -> Z -> string -> string -> option string
}.

Section Index.
Context `{Host}.

Definition log (args : list logged) : js unit := ([console_log args], Return tt).

Definition log_error (args : list logged) : js unit := ([console_error args], Return tt).

Definition buffer_from (text : string) : js (list byte) :=
  ([Buffer_from text], Return (Buffer_from_base64 text)).

(** [!encodedOutput]: [null] and the empty string are falsy. *)
Definition falsy (encodedOutput : option string) : bool :=
  match encodedOutput with
  | None => true
  | Some EmptyString => true
  | Some _ => false
  end.

Definition startsWith (s p : string) : bool := String.prefix p s.

(** [getLibraryPath], with [process.platform] and [process.arch] as its
    arguments. *)
Definition getLibraryPath (platform arch : string) : completion string :=
  let resolved (libName : string) := Return (path_resolve [dirname; "lib"; libName]) in
  if String.eqb platform "linux" && String.eqb arch "x64" then
    resolved "pdfencrypt_linux.so"
  else if String.eqb platform "darwin" then
    resolved (if String.eqb arch "arm64"
              then "pdfencrypt_darwin_arm64.dylib"
              else "pdfencrypt_darwin_x64.dylib")
  else if String.eqb platform "win32" && String.eqb arch "x64" then
    resolved "pdfencrypt_win_x64.dll"
  else
    Throw ("Unsupported platform/architecture: " ++ platform ++ "/" ++ arch)%string.

(** [encryptPDF] *)
Definition encryptPDF (pdfBuffer : list byte) (userPassword : string)
    (ownerPassword : option string) (permissions : option (list string))
  : js (list byte) :=
  let ownerPassword := default_arg userPassword ownerPassword in
  let permissions := default_arg [DEFAULT] permissions in
  let permissionsJSON := JSON_stringify permissions in
  let length := Z.of_nat (List.length pdfBuffer) in
  log [Text "PDF buffer size:"; Num length] ;;;
  log [Text "Permissions:"; Text permissionsJSON] ;;;
  try_catch
    (encodedOutput <-
       ([call_EncryptPDF pdfBuffer length userPassword ownerPassword permissionsJSON],
        Return (EncryptPDF pdfBuffer length userPassword ownerPassword permissionsJSON)) ;;
     if falsy encodedOutput then throw "Encryption returned null"
     else
       let encodedOutput :=
         match encodedOutput with Some t => t | None => EmptyString end in
       if startsWith encodedOutput "Error" then throw encodedOutput
       else
         encryptedBuffer <- buffer_from encodedOutput ;;
         log [Text "✅ Encryption successful"] ;;;
         log [Text "📦 Output buffer length:";
              Num (Z.of_nat (List.length encryptedBuffer))] ;;;
         ret encryptedBuffer)
    (fun err =>
       log_error [Text "❌ Encryption failed:"; Err err] ;;;
       throw err).

(** [decryptPDF] *)
Definition decryptPDF (pdfBuffer : list byte) (password : string)
    (ownerPassword : option string)
  : js (list byte) :=
  let ownerPassword := default_arg EmptyString ownerPassword in
  let length := Z.of_nat (List.length pdfBuffer) in
  log [Text "PDF buffer size:"; Num length] ;;;
  log [Text "Attempting decryption..."] ;;;
  try_catch
    (encodedOutput <-
       ([call_DecryptPDF pdfBuffer length password ownerPassword],
        Return (DecryptPDF pdfBuffer length password ownerPassword)) ;;
     if falsy encodedOutput then throw "Decryption returned null"
     else
       let encodedOutput :=
         match encodedOutput with Some t => t | None => EmptyString end in
       if startsWith encodedOutput "Error" then throw encodedOutput
       else
         decryptedBuffer <- buffer_from encodedOutput ;;
         log [Text "✅ Decryption successful"] ;;;
         log [Text "📦 Output buffer length:";
              Num (Z.of_nat (List.length decryptedBuffer))] ;;;
         ret decryptedBuffer)
    (fun err =>
       log_error [Text "❌ Decryption failed:"; Err err] ;;;
       throw err).

End Index.

End Wrapper.

(** ** The bridge: what a call bound by koffi comes to when the library
    built from main.go is the one loaded *)
Module Koffi.

(** [C.GoString], and the way a [char *] result is read back: the bytes
    before the first NUL. *)
Fixpoint GoString (s : string) : string :=
  match s with
  | EmptyString => EmptyString
  | String c r =>
      if (N_of_ascii c =? 0)%N then EmptyString else String c (GoString r)
  end.

(** The largest C [int], the type of [pdfBufferSize] on both sides. *)
Definition INT_MAX : Z := 2147483647.

(** [C.GoBytes(ptr, n)].  It gives the first [n] bytes of the buffer when
    [n] is a length the C [int] holds and the buffer has that many bytes.
    There is no slice otherwise: a negative length makes [C.GoBytes]
    panic, a number above [INT_MAX] does not arrive as it was sent, and a
    length beyond the buffer reads memory that is not the buffer's. *)
Definition GoBytes (buffer : list byte) (n : Z) : option (list byte) :=
  if (0 <=? n)%Z && (n <=? INT_MAX)%Z && (n <=? Z.of_nat (List.length buffer))%Z
  then Some (firstn (Z.to_nat n) buffer)
  else None.

(** What a bound call comes to: [Answer] with the text index.js receives,
    or [Lost] when index.js receives no text, because the process ended
    in the call or the text could not be made a JavaScript string. *)
Inductive outcome : Type :=
| Answer (text : string)
| Lost.

(** The [char *] result read back as a string of at most [max_string]
    bytes, the longest string the JavaScript engine makes. *)
Definition read_back (max_string : Z) (result : string) : outcome :=
  let text := GoString result in
  if (Z.of_nat (String.length text) <=? max_string)%Z then Answer text else Lost.

Section Load.
Context `{GoStrings.Runtime} `{Pdfcpu.Library}.

Definition EncryptPDF (max_string : Z) (pdfBufferPtr : list byte)
    (pdfBufferSize : Z) (userPwStr ownerPwStr permissionsStr : string) : outcome :=
  match GoBytes pdfBufferPtr pdfBufferSize with
  | Some pdfBytes =>
      read_back max_string
        (snd (Native.EncryptPDF pdfBytes (GoString userPwStr) (GoString ownerPwStr)
                (GoString permissionsStr)))
  | None => Lost
  end.

Definition DecryptPDF (max_string : Z) (pdfBufferPtr : list byte)
    (pdfBufferSize : Z) (passwordStr ownerPwStr : string) : outcome :=
  match GoBytes pdfBufferPtr pdfBufferSize with
  | Some pdfBytes =>
      read_back max_string
        (snd (Native.DecryptPDF pdfBytes (GoString passwordStr) (GoString ownerPwStr)))
  | None => Lost
  end.

End Load.

(** The bound function of a host answered a call as the loaded library
    does: the call came back, with that text. *)
Definition answers (o : outcome) (reply : option string) : Prop :=
  match o with
  | Answer text => reply = Some text
  | Lost => False
  end.

End Koffi.

(** ** An engine and a host to run the model on

    The theorems below hold for every [Runtime], [Library] and [Host];
    these instances give them concrete inputs.  The flags sit at the bit
    positions of the PDF permission word, the engine opens a document for
    the user password [user123] or the owner password [owner123], as the
    test script of the repository sets them, and leaves the bytes as they
    are.  The no-permissions value of [pdfcpu] is zero, as the
    specification describes it; [pdfcpu_none] is the same engine with the
    value pdfcpu gives it. *)
Module Sample.

Definition runtime : GoStrings.Runtime :=
  {| unicode_ToLower_Map := fun s => s |}.

(** The error names the password that was tried, so that two failed
    attempts can be told apart. *)
Definition wrong_password (conf : Configuration) : error :=
  ("pdfcpu: cannot open the document with " ++ UserPW conf)%string.

Definition opens (conf : Configuration) : bool :=
  String.eqb (UserPW conf) "user123" || String.eqb (OwnerPW conf) "owner123".

Definition pdfcpu : Pdfcpu.Library :=
  {| PermissionPrintRev3 := 2048%Z;
     PermissionExtract := 16%Z;
     PermissionModAnnFillForm := 32%Z;
     PermissionFillRev3 := 256%Z;
     PermissionAssembleRev3 := 1024%Z;
     PermissionsAll := 3900%Z;
     PermissionModify := 8%Z;
     PermissionsNone := 0%Z;
     NewDefaultConfiguration :=
       {| UserPW := ""; OwnerPW := ""; EncryptUsingAES := true;
          EncryptKeyLength := 256%Z; Permissions := 0%Z |};
     api_Encrypt := fun pdf conf =>
       match pdf with
       | [] => inl "pdfcpu: empty input"%string
       | _ => inr pdf
       end;
     api_Decrypt := fun pdf conf =>
       (conf, if opens conf then inr pdf else inl (wrong_password conf)) |}.

Definition quote : string := String (ascii_of_N 34) EmptyString.

(** [JSON.stringify] of an array of strings that need no escaping. *)
Definition JSON_stringify (permissions : list string) : string :=
  ("[" ++ String.concat "," (map (fun p => quote ++ p ++ quote) permissions) ++ "]")%string.

Fixpoint index_of (c : ascii) (s : string) (i : N) : option N :=
  match s with
  | EmptyString => None
  | String d r => if Ascii.eqb c d then Some i else index_of c r (i + 1)%N
  end.

(** The six-bit values of the Base64 characters of a text. *)
Fixpoint sextets (text : string) : list N :=
  match text with
  | EmptyString => []
  | String c r =>
      match index_of c GoBase64.encodeStd 0 with
      | Some v => v :: sextets r
      | None => sextets r
      end
  end.

Definition to_byte (n : N) : byte :=
  match Byte.of_N (N.land n 255) with
  | Some b => b
  | None => Byte.x00
  end.

Fixpoint bytes_of (vs : list N) : list byte :=
  match vs with
  | a :: b :: c :: d :: r =>
      let v := (N.shiftl a 18 + N.shiftl b 12 + N.shiftl c 6 + d)%N in
      to_byte (N.shiftr v 16) :: to_byte (N.shiftr v 8) :: to_byte v :: bytes_of r
  | [a; b; c] =>
      let v := (N.shiftl a 18 + N.shiftl b 12 + N.shiftl c 6)%N in
      [to_byte (N.shiftr v 16); to_byte (N.shiftr v 8)]
  | [a; b] =>
      let v := (N.shiftl a 18 + N.shiftl b 12)%N in
      [to_byte (N.shiftr v 16)]
  | _ => []
  end.

Definition Buffer_from_base64 (text : string) : list byte := bytes_of (sextets text).

(** The host of the samples: its native functions answer with the text
    main.go returns for the buffer and the strings as they are passed. *)
Definition host : Wrapper.Host :=
  {| Wrapper.dirname := "/srv/app";
     Wrapper.path_resolve := String.concat "/";
     Wrapper.JSON_stringify := JSON_stringify;
     Wrapper.Buffer_from_base64 := Buffer_from_base64;
     Wrapper.EncryptPDF := fun pdfBuffer _ userPw ownerPw permissionsJSON =>
       Some (snd (@Native.EncryptPDF runtime pdfcpu pdfBuffer userPw ownerPw
                    permissionsJSON));
     Wrapper.DecryptPDF := fun pdfBuffer _ password ownerPw =>
       Some (snd (@Native.DecryptPDF pdfcpu pdfBuffer password ownerPw)) |}.

(** pdfcpu's own value for [model.PermissionsNone], 0xF0C3: the bits the
    PDF format reserves are set in it, and no permission bit is. *)
Definition pdfcpu_none : Pdfcpu.Library :=
  {| PermissionPrintRev3 := PermissionPrintRev3 (Library := pdfcpu);
     PermissionExtract := PermissionExtract (Library := pdfcpu);
     PermissionModAnnFillForm := PermissionModAnnFillForm (Library := pdfcpu);
     PermissionFillRev3 := PermissionFillRev3 (Library := pdfcpu);
     PermissionAssembleRev3 := PermissionAssembleRev3 (Library := pdfcpu);
     PermissionsAll := PermissionsAll (Library := pdfcpu);
     PermissionModify := PermissionModify (Library := pdfcpu);
     PermissionsNone := 61635%Z;
     NewDefaultConfiguration := NewDefaultConfiguration (Library := pdfcpu);
     api_Encrypt := api_Encrypt (Library := pdfcpu);
     api_Decrypt := api_Decrypt (Library := pdfcpu) |}.

Definition sample_pdf : list byte := list_byte_of_string "%PDF-1.4 sample".

(** The JSON text of an array that holds the string [print] and the
    number 1. *)
Definition print_and_number : string :=
  ("[" ++ quote ++ "print" ++ quote ++ ",1]")%string.

End Sample.

(** ** Words of the specification *)
Module Words.

Section Tokens.
Context `{GoStrings.Runtime}.

(** A token of the fixed vocabulary, whatever its case. *)
Definition recognized (t : string) : bool :=
  existsb (String.eqb (ToLower t))
    [Native.PermPrint; Native.PermCopy; Native.PermAnnotate; Native.PermForms;
     Native.PermAssemble; Native.PermAll; Native.PermModify; Native.PermDefault].

(** The other case of an ASCII letter. *)
Definition flipCase (c : ascii) : ascii :=
  if isUpperByte c then ascii_of_N (N_of_ascii c + 32)
  else if ((97 <=? N_of_ascii c) && (N_of_ascii c <=? 122))%N
       then ascii_of_N (N_of_ascii c - 32)
       else c.

(** [recased t t']: [t'] is [t] with the case of some of its letters
    changed. *)
Inductive recased : string -> string -> Prop :=
| recased_nil : recased EmptyString EmptyString
| recased_keep c t t' : recased t t' -> recased (String c t) (String c t')
| recased_flip c t t' : recased t t' -> recased (String c t) (String (flipCase c) t').

End Tokens.

(** No [Buffer.from] among the events of a run. *)
Definition never_decodes (events : list Wrapper.event) : Prop :=
  forall text, ~ In (Wrapper.Buffer_from text) events.

(** A JSON value that is an array. *)
Definition is_array (v : GoJSON.value) : bool :=
  match v with GoJSON.Array _ => true | _ => false end.

End Words.

(** ** Node's [JSON.stringify], for an array of strings

    Each string is quoted as ECMAScript's QuoteJSONString does: a quote
    and a backslash get a backslash in front, backspace, form feed, line
    feed, carriage return and tab become their two-letter escapes, any
    other character below U+0020 becomes [\u00] and two lower-case hex
    digits, and everything else stands for itself.  The elements are
    joined by commas, without blanks. *)
Module NodeJSON.

Definition quote : string := String (ascii_of_N 34) EmptyString.

Definition backslash : ascii := ascii_of_N 92.

Definition hexdigit (n : N) : ascii :=
  if (n <? 10)%N then ascii_of_N (48 + n) else ascii_of_N (87 + n).

Definition quote_char (c : ascii) : string :=
  let n := N_of_ascii c in
  if ((n =? 34) || (n =? 92))%N then String backslash (String c EmptyString)
  else if (n =? 8)%N then String backslash "b"
  else if (n =? 12)%N then String backslash "f"
  else if (n =? 10)%N then String backslash "n"
  else if (n =? 13)%N then String backslash "r"
  else if (n =? 9)%N then String backslash "t"
  else if (n <? 32)%N then
    String backslash
      (String "u" (String "0" (String "0"
         (String (hexdigit (n / 16)) (String (hexdigit (n mod 16)) EmptyString)))))
  else String c EmptyString.

Fixpoint quote_body (s : string) : string :=
  match s with
  | EmptyString => EmptyString
  | String c r => (quote_char c ++ quote_body r)%string
  end.

Definition QuoteJSONString (s : string) : string :=
  (quote ++ quote_body s ++ quote)%string.

Definition stringify (value : list string) : string :=
  ("[" ++ String.concat "," (map QuoteJSONString value) ++ "]")%string.

End NodeJSON.

(** ** Words for index.js over the loaded library *)
Module Loaded.

(** No byte of the text is NUL. *)
Fixpoint nul_free (s : string) : bool :=
  match s with
  | EmptyString => true
  | String c r => negb (N_of_ascii c =? 0)%N && nul_free r
  end.

End Loaded.

(** ** More words for the statements below *)
Module Notions.

Section Flags.
Context `{GoStrings.Runtime} `{Pdfcpu.Library}.

(** The flag value a token stands for: what the loop of
    [buildPermissionMask] ors into the mask for it; zero for a token
    outside the vocabulary. *)
Definition flag_of (t : string) : PermissionFlags := Native.mask_step 0%Z t.

(** The text [EncryptPDF] or [DecryptPDF] makes of what pdfcpu returned. *)
Definition result_text (what : string) (r : error + list byte) : string :=
  match r with
  | inl err => ("Error " ++ what ++ " PDF: " ++ err)%string
  | inr encodedOutput => GoBase64.Encode encodedOutput
  end.

End Flags.

Section Requests.
Context `{GoStrings.Runtime}.

(** One permission list rewritten into another without changing what is
    asked for: the case of letters of a token of ASCII characters is
    changed, the list is reordered, a token is written twice, or a token
    outside the vocabulary is added; and back, and in any number of
    steps. *)
Inductive rewritten : list string -> list string -> Prop :=
| rewritten_case l1 t t' l2 :
    isASCII t = true -> Words.recased t t' ->
    rewritten (l1 ++ t :: l2) (l1 ++ t' :: l2)
| rewritten_order l l' : Permutation l l' -> rewritten l l'
| rewritten_twice l1 t l2 : rewritten (l1 ++ t :: l2) (l1 ++ t :: t :: l2)
| rewritten_unknown l1 t l2 :
    Words.recognized t = false -> rewritten (l1 ++ l2) (l1 ++ t :: l2)
| rewritten_sym l l' : rewritten l l' -> rewritten l' l
| rewritten_trans l l' l'' :
    rewritten l l' -> rewritten l' l'' -> rewritten l l''.

End Requests.

(** The token [print] with U+0131, the dotless small i, for its third
    letter (the bytes 0xC4 0xB1 in UTF-8).  Its upper case is [PRINT]:
    the capital of the dotless i is the plain I. *)
Definition dotless_print : string :=
  String "p" (String "r" (String (ascii_of_N 196) (String (ascii_of_N 177)
    (String "n" (String "t" EmptyString))))).

(** The tokens of the elements of a JSON array of strings as
    [JSON.stringify] writes it, brackets apart. *)
Fixpoint element_tokens (value : list string) : list GoJSON.token :=
  match value with
  | [] => []
  | [x] => [GoJSON.TString (NodeJSON.quote_body x)]
  | x :: rest =>
      GoJSON.TString (NodeJSON.quote_body x) :: GoJSON.TComma :: element_tokens rest
  end.

End Notions.

(** * Facts about src/main.go *)

Section MaskFacts.
Context `{GoStrings.Runtime} `{Pdfcpu.Library}.

Import Native Words.

(** The flag a single token stands for: what the [switch] ors into an
    empty mask. *)
Lemma mask_step_lor (mask : PermissionFlags) (p : string) :
  mask_step mask p = Z.lor mask (mask_step 0%Z p).
Proof.
  unfold mask_step.
  repeat match goal with
         | |- context [if ?b then _ else _] => destruct b
         end;
    rewrite ?Z.lor_0_l, ?Z.lor_0_r; reflexivity.
Qed.

Lemma fold_mask_lor (perms : list string) (mask : PermissionFlags) :
  fold_left mask_step perms mask = Z.lor mask (buildPermissionMask perms).
Proof.
  unfold buildPermissionMask.
  revert mask; induction perms as [|p perms IH]; intros mask; simpl.
  - now rewrite Z.lor_0_r.
  - rewrite IH, (IH (mask_step 0%Z p)), (mask_step_lor mask p).
    now rewrite Z.lor_assoc.
Qed.

Lemma buildPermissionMask_cons (p : string) (perms : list string) :
  buildPermissionMask (p :: perms) =
  Z.lor (mask_step 0%Z p) (buildPermissionMask perms).
Proof.
  unfold buildPermissionMask at 1; simpl. apply fold_mask_lor.
Qed.

Lemma buildPermissionMask_app (l1 l2 : list string) :
  buildPermissionMask (l1 ++ l2) =
  Z.lor (buildPermissionMask l1) (buildPermissionMask l2).
Proof.
  unfold buildPermissionMask at 1.
  rewrite fold_left_app. fold (buildPermissionMask l1). apply fold_mask_lor.
Qed.

Lemma mask_step_unrecognized (mask : PermissionFlags) (t : string) :
  recognized t = false -> mask_step mask t = mask.
Proof.
  unfold recognized, mask_step; cbn [existsb]; intros Hr.
  repeat (apply orb_false_elim in Hr; destruct Hr as [?E Hr]).
  now rewrite E, E0, E1, E2, E3, E4, E5, E6.
Qed.

Lemma mask_step_ToLower (mask : PermissionFlags) (t t' : string) :
  ToLower t = ToLower t' -> mask_step mask t = mask_step mask t'.
Proof. unfold mask_step; intros ->; reflexivity. Qed.

Lemma buildPermissionMask_unrecognized (perms : list string) :
  Forall (fun t => recognized t = false) perms -> buildPermissionMask perms = 0%Z.
Proof.
  induction 1 as [|t perms Ht _ IH].
  - reflexivity.
  - rewrite buildPermissionMask_cons, IH, (mask_step_unrecognized _ _ Ht).
    reflexivity.
Qed.

Lemma buildPermissionMask_Permutation (l l' : list string) :
  Permutation l l' -> buildPermissionMask l = buildPermissionMask l'.
Proof.
  induction 1 as [|p l l' _ IH|p q l|l l' l'' _ IH1 _ IH2].
  - reflexivity.
  - now rewrite !buildPermissionMask_cons, IH.
  - rewrite !buildPermissionMask_cons, !Z.lor_assoc.
    now rewrite (Z.lor_comm (mask_step 0%Z q)).
  - now rewrite IH1.
Qed.

(** Changing the case of ASCII letters of an ASCII token does not change
    what [strings.ToLower] makes of it. *)
Lemma lowerByte_flipCase (c : ascii) : lowerByte (flipCase c) = lowerByte c.
Proof.
  destruct c as [[] [] [] [] [] [] [] []]; reflexivity.
Qed.

Lemma isASCIIByte_flipCase (c : ascii) : isASCIIByte (flipCase c) = isASCIIByte c.
Proof.
  destruct c as [[] [] [] [] [] [] [] []]; reflexivity.
Qed.

Lemma recased_ToLower (t t' : string) :
  isASCII t = true -> recased t t' -> ToLower t = ToLower t'.
Proof.
  intros Ht Hr.
  assert (isASCII t' = isASCII t /\ lowerASCII t' = lowerASCII t) as [Ha Hl].
  { clear Ht. induction Hr as [|c t t' _ [IHa IHl]|c t t' _ [IHa IHl]]; simpl.
    - split; reflexivity.
    - now rewrite IHa, IHl.
    - now rewrite IHa, IHl, isASCIIByte_flipCase, lowerByte_flipCase. }
  unfold ToLower. now rewrite Ha, Hl, Ht.
Qed.

Lemma mask_step_twice (mask : PermissionFlags) (t : string) :
  mask_step (mask_step mask t) t = mask_step mask t.
Proof.
  rewrite (mask_step_lor (mask_step mask t)), (mask_step_lor mask t).
  now rewrite <- Z.lor_assoc, Z.lor_diag.
Qed.

(** C3, amended.  The mask of [print] and [copy] is the print flag or-ed
    with the copy flag and nothing else; the mask of [all] is the
    all-permissions value; the mask of the empty list, and of a list of
    tokens outside the vocabulary, is zero; the token [default]
    contributes the library's no-permissions value [PermissionsNone],
    wherever it stands: the mask of [default] alone is that value, and the
    token changes nothing only where that value is all-zero. *)
Theorem buildPermissionMask_composition :
  buildPermissionMask ["print"; "copy"] = Z.lor PermissionPrintRev3 PermissionExtract
  /\ buildPermissionMask ["all"] = PermissionsAll
  /\ buildPermissionMask [] = 0%Z
  /\ (forall perms,
        Forall (fun t => recognized t = false) perms ->
        buildPermissionMask perms = 0%Z)
  /\ buildPermissionMask ["default"] = PermissionsNone
  /\ (forall before after,
        buildPermissionMask (before ++ "default" :: after) =
        Z.lor (Z.lor (buildPermissionMask before) PermissionsNone)
              (buildPermissionMask after))
  /\ (PermissionsNone = 0%Z ->
      forall before after,
        buildPermissionMask (before ++ "default" :: after) =
        buildPermissionMask (before ++ after)).
Proof.
  assert (Hd : forall mask, mask_step mask "default" = Z.lor mask PermissionsNone)
    by reflexivity.
  split; [reflexivity|]. split; [reflexivity|]. split; [reflexivity|].
  split; [apply buildPermissionMask_unrecognized|].
  split; [reflexivity|].
  assert (Ha : forall before after,
             buildPermissionMask (before ++ "default" :: after) =
             Z.lor (Z.lor (buildPermissionMask before) PermissionsNone)
                   (buildPermissionMask after)).
  { intros before after.
    rewrite buildPermissionMask_app, buildPermissionMask_cons, Hd.
    now rewrite Z.lor_0_l, Z.lor_assoc. }
  split; [exact Ha|].
  intros Hz before after.
  now rewrite Ha, Hz, Z.lor_0_r, buildPermissionMask_app.
Qed.

(** C7, amended.  Rewriting a permission list by changing the case of
    letters in tokens of ASCII characters, by reordering, by repeating
    tokens or by adding and removing tokens outside the vocabulary leaves
    the mask as it was. *)
Theorem buildPermissionMask_rewritten (l l' : list string) :
  Notions.rewritten l l' -> buildPermissionMask l = buildPermissionMask l'.
Proof.
  induction 1 as [l1 t t' l2 Ha Hr|l l' Hp|l1 t l2|l1 t l2 Ht|l l' _ IH
                 |l l' l'' _ IH1 _ IH2].
  - rewrite !buildPermissionMask_app, !buildPermissionMask_cons.
    now rewrite (mask_step_ToLower _ _ _ (recased_ToLower _ _ Ha Hr)).
  - now apply buildPermissionMask_Permutation.
  - rewrite !buildPermissionMask_app, !buildPermissionMask_cons.
    f_equal. now rewrite (Z.lor_assoc (mask_step 0%Z t)), Z.lor_diag.
  - rewrite !buildPermissionMask_app, buildPermissionMask_cons.
    now rewrite (mask_step_unrecognized _ _ Ht), Z.lor_0_l.
  - now symmetry.
  - now rewrite IH1.
Qed.

End MaskFacts.

Section EngineFacts.
Context `{GoStrings.Runtime} `{Pdfcpu.Library}.

Import Native Words.

Lemma setCustomPerms_spec (perms : list string) :
  setCustomPerms perms = true <->
  perms <> [] /\ ~ (exists t, perms = [t] /\ ToLower t = "default").
Proof.
  unfold setCustomPerms.
  destruct perms as [|t [|t' rest]]; simpl.
  - split; [discriminate|]. intros [Hn _]. now elim Hn.
  - destruct (String.eqb_spec (ToLower t) "default") as [E|E]; split.
    + discriminate.
    + intros [_ Hn]. elim Hn. now exists t.
    + intros _. split; [discriminate|]. intros [t0 [Ht0 Hl]].
      injection Ht0 as ->. contradiction.
    + reflexivity.
  - split; [|reflexivity]. intros _. split; [discriminate|].
    intros [t0 [Ht0 _]]. discriminate.
Qed.

(** C2.  Custom permissions are applied exactly when the list is not
    empty and is not the single token [default], in whatever letter case;
    otherwise the configuration is the one [NewAESConfiguration] built.
    The empty list and the list [default] give the same permission mask. *)
Theorem EncryptPDF_custom_permissions (userPw ownerPw : string) (perms : list string) :
  (setCustomPerms perms = true <->
   perms <> [] /\ ~ (exists t, perms = [t] /\ ToLower t = "default"))
  /\ (setCustomPerms perms = true ->
      EncryptPDF_conf userPw ownerPw perms =
      set_Permissions (buildPermissionMask perms)
        (NewAESConfiguration userPw ownerPw 256))
  /\ (setCustomPerms perms = false ->
      EncryptPDF_conf userPw ownerPw perms = NewAESConfiguration userPw ownerPw 256)
  /\ EncryptPDF_conf userPw ownerPw [] = NewAESConfiguration userPw ownerPw 256
  /\ EncryptPDF_conf userPw ownerPw ["default"] = NewAESConfiguration userPw ownerPw 256
  /\ Permissions (EncryptPDF_conf userPw ownerPw []) =
     Permissions (EncryptPDF_conf userPw ownerPw ["default"]).
Proof.
  split; [apply setCustomPerms_spec|].
  unfold EncryptPDF_conf.
  repeat split.
  - now intros ->.
  - now intros ->.
Qed.

(** C10.  A single token that lower-cases to [default], in any case,
    leaves the configuration as [NewAESConfiguration] built it, as
    [default] and the empty list do. *)
Theorem EncryptPDF_default_any_case (userPw ownerPw t : string) :
  ToLower t = "default" ->
  EncryptPDF_conf userPw ownerPw [t] = NewAESConfiguration userPw ownerPw 256
  /\ EncryptPDF_conf userPw ownerPw [t] = EncryptPDF_conf userPw ownerPw ["default"]
  /\ EncryptPDF_conf userPw ownerPw [t] = EncryptPDF_conf userPw ownerPw [].
Proof.
  intros Ht.
  assert (E : EncryptPDF_conf userPw ownerPw [t] = NewAESConfiguration userPw ownerPw 256).
  { unfold EncryptPDF_conf, setCustomPerms. simpl. now rewrite Ht. }
  rewrite E. repeat split.
Qed.

(** C1.  The first attempt uses the primary password as user and owner
    password.  There is a second attempt exactly when the first one fails
    and the secondary password is neither empty nor the primary one; it
    uses the secondary password in both roles.  There is never a third. *)
Theorem DecryptPDF_attempts (pdfBytes : list byte) (p o : string) :
  let first := set_OwnerPW p (set_UserPW p NewDefaultConfiguration) in
  let retry := set_OwnerPW o (set_UserPW o (fst (api_Decrypt pdfBytes first))) in
  let retried :=
    failed (snd (api_Decrypt pdfBytes first)) = true /\ o <> "" /\ o <> p in
  (UserPW first = p /\ OwnerPW first = p)
  /\ (UserPW retry = o /\ OwnerPW retry = o)
  /\ (fst (DecryptPDF pdfBytes p o) = [Decrypt pdfBytes first; Decrypt pdfBytes retry]
      <-> retried)
  /\ (fst (DecryptPDF pdfBytes p o) = [Decrypt pdfBytes first] <-> ~ retried)
  /\ (fst (DecryptPDF pdfBytes p o) = [Decrypt pdfBytes first]
      \/ fst (DecryptPDF pdfBytes p o) = [Decrypt pdfBytes first; Decrypt pdfBytes retry]).
Proof.
  cbv zeta. unfold DecryptPDF.
  destruct (api_Decrypt pdfBytes _) as [conf1 r1]; simpl.
  split; [now split|]. split; [now split|].
  destruct r1 as [e|out]; simpl;
    destruct (String.eqb_spec o "") as [Eo|Eo];
    destruct (String.eqb_spec o p) as [Ep|Ep]; simpl;
    intuition (try discriminate; try congruence).
Qed.

(** C8.  When both attempts fail, the text returned carries the error of
    the second attempt; the error of the first one is not part of it. *)
Theorem DecryptPDF_second_error (pdfBytes : list byte) (p o : string)
    (e1 e2 : error) (conf1 conf2 : Configuration) :
  api_Decrypt pdfBytes (set_OwnerPW p (set_UserPW p NewDefaultConfiguration))
    = (conf1, inl e1) ->
  o <> "" ->
  o <> p ->
  api_Decrypt pdfBytes (set_OwnerPW o (set_UserPW o conf1)) = (conf2, inl e2) ->
  snd (DecryptPDF pdfBytes p o) = ("Error decrypting PDF: " ++ e2)%string.
Proof.
  intros H1 Ho Hp H2. unfold DecryptPDF. rewrite H1. simpl.
  destruct (String.eqb_spec o "") as [E|_]; [contradiction|].
  destruct (String.eqb_spec o p) as [E|_]; [contradiction|].
  simpl. now rewrite H2.
Qed.

Lemma Unmarshal_not_array (data : string) :
  GoJSON.parse data = None
  \/ (exists v, GoJSON.parse data = Some v /\ is_array v = false) ->
  fst (GoJSON.Unmarshal data) = [].
Proof.
  unfold GoJSON.Unmarshal.
  intros [-> | [v [-> Hv]]]; [reflexivity|].
  destruct v; try reflexivity. discriminate.
Qed.

(** C9, amended.  [EncryptPDF] never reports what [json.Unmarshal]
    returns: for every permissions text it makes one call of
    [api.Encrypt], and the text it returns is that call's.  When the text
    is not a JSON text, or is one whose value is not an array, the
    permission list is empty and the configuration is the one
    [NewAESConfiguration] built.  When it is an array, every element that
    is not a string is an empty string in the list, which keeps the
    array's length. *)
Theorem EncryptPDF_permissions_text (pdfBytes : list byte) (userPw ownerPw : string) :
  (forall permissionsJSON,
      let conf := EncryptPDF_conf userPw ownerPw (fst (GoJSON.Unmarshal permissionsJSON)) in
      EncryptPDF pdfBytes userPw ownerPw permissionsJSON =
      ([Encrypt pdfBytes conf],
       match api_Encrypt pdfBytes conf with
       | inl err => ("Error encrypting PDF: " ++ err)%string
       | inr encodedOutput => GoBase64.Encode encodedOutput
       end))
  /\ (forall permissionsJSON,
        GoJSON.parse permissionsJSON = None
        \/ (exists v, GoJSON.parse permissionsJSON = Some v /\ is_array v = false) ->
        fst (GoJSON.Unmarshal permissionsJSON) = []
        /\ EncryptPDF_conf userPw ownerPw (fst (GoJSON.Unmarshal permissionsJSON))
           = NewAESConfiguration userPw ownerPw 256)
  /\ (forall permissionsJSON elems,
        GoJSON.parse permissionsJSON = Some (GoJSON.Array elems) ->
        fst (GoJSON.Unmarshal permissionsJSON)
        = map (fun v => fst (GoJSON.store_element v)) elems).
Proof.
  split; [reflexivity|]. split.
  - intros permissionsJSON Hp.
    rewrite (Unmarshal_not_array _ Hp). split; reflexivity.
  - intros permissionsJSON elems Hp.
    unfold GoJSON.Unmarshal. rewrite Hp. simpl. now rewrite map_map.
Qed.

End EngineFacts.

(** * Facts about index.js *)

Section WrapperFacts.
Context `{Wrapper.Host}.

Import Wrapper Words.

(** C6.  [getLibraryPath] is a function of the platform and the
    architecture: linux on x64, darwin on arm64, darwin on anything else
    and win32 on x64 each select one file name under [lib]; every other
    pair throws an error that names the platform and the architecture. *)
Theorem getLibraryPath_mapping :
  getLibraryPath "linux" "x64"
  = Return (path_resolve [dirname; "lib"; "pdfencrypt_linux.so"])
  /\ getLibraryPath "darwin" "arm64"
     = Return (path_resolve [dirname; "lib"; "pdfencrypt_darwin_arm64.dylib"])
  /\ (forall arch,
        arch <> "arm64" ->
        getLibraryPath "darwin" arch
        = Return (path_resolve [dirname; "lib"; "pdfencrypt_darwin_x64.dylib"]))
  /\ getLibraryPath "win32" "x64"
     = Return (path_resolve [dirname; "lib"; "pdfencrypt_win_x64.dll"])
  /\ (forall platform arch,
        ~ (platform = "linux" /\ arch = "x64") ->
        platform <> "darwin" ->
        ~ (platform = "win32" /\ arch = "x64") ->
        getLibraryPath platform arch
        = Throw ("Unsupported platform/architecture: " ++ platform ++ "/" ++ arch)%string).
Proof.
  split; [reflexivity|]. split; [reflexivity|]. split.
  - intros arch Ha. unfold getLibraryPath. simpl.
    now destruct (String.eqb_spec arch "arm64").
  - split; [reflexivity|].
    intros platform arch Hl Hd Hw. unfold getLibraryPath.
    destruct (String.eqb_spec platform "linux");
      destruct (String.eqb_spec arch "x64");
      destruct (String.eqb_spec platform "darwin");
      destruct (String.eqb_spec platform "win32"); simpl;
      try reflexivity; try contradiction; try (elim Hl; now split);
      try (elim Hw; now split).
Qed.

Lemma never_decodes_failure (a b c d : event) :
  (forall text, a <> Buffer_from text) ->
  (forall text, b <> Buffer_from text) ->
  (forall text, c <> Buffer_from text) ->
  (forall text, d <> Buffer_from text) ->
  never_decodes [a; b; c; d].
Proof.
  intros Ha Hb Hc Hd text [E|[E|[E|[E|[]]]]];
    [exact (Ha _ E)|exact (Hb _ E)|exact (Hc _ E)|exact (Hd _ E)].
Qed.

Lemma startsWith_Error_text (text : string) :
  startsWith text "Error" = true -> falsy (Some text) = false.
Proof. destruct text; [discriminate|reflexivity]. Qed.

(** The whole run of [encryptPDF], by what the native call returned. *)
Lemma encryptPDF_run (pdfBuffer : list byte) (userPassword : string)
    (ownerPassword : option string) (permissions : option (list string)) :
  let size := Z.of_nat (List.length pdfBuffer) in
  let owner := default_arg userPassword ownerPassword in
  let json := JSON_stringify (default_arg [DEFAULT] permissions) in
  let encrypted := EncryptPDF pdfBuffer size userPassword owner json in
  let before :=
    [console_log [Text "PDF buffer size:"; Num size];
     console_log [Text "Permissions:"; Text json];
     call_EncryptPDF pdfBuffer size userPassword owner json] in
  let failure (message : string) : js (list byte) :=
    (before ++ [console_error [Text "❌ Encryption failed:"; Err message]],
     Throw message) in
  encryptPDF pdfBuffer userPassword ownerPassword permissions =
  match encrypted with
  | None => failure "Encryption returned null"
  | Some text =>
      if falsy (Some text) then failure "Encryption returned null"
      else if startsWith text "Error" then failure text
      else
        (before ++
         [Buffer_from text;
          console_log [Text "✅ Encryption successful"];
          console_log [Text "📦 Output buffer length:";
                       Num (Z.of_nat (List.length (Buffer_from_base64 text)))]],
         Return (Buffer_from_base64 text))
  end.
Proof.
  cbv zeta. unfold encryptPDF, bind, try_catch, log, log_error, throw, ret, buffer_from.
  destruct (EncryptPDF _ _ _ _ _) as [text|]; [|reflexivity].
  destruct (falsy (Some text)); [reflexivity|].
  destruct (startsWith text "Error"); reflexivity.
Qed.

(** The whole run of [decryptPDF], by what the native call returned. *)
Lemma decryptPDF_run (pdfBuffer : list byte) (password : string)
    (ownerPassword : option string) :
  let size := Z.of_nat (List.length pdfBuffer) in
  let owner := default_arg EmptyString ownerPassword in
  let decrypted := DecryptPDF pdfBuffer size password owner in
  let before :=
    [console_log [Text "PDF buffer size:"; Num size];
     console_log [Text "Attempting decryption..."];
     call_DecryptPDF pdfBuffer size password owner] in
  let failure (message : string) : js (list byte) :=
    (before ++ [console_error [Text "❌ Decryption failed:"; Err message]],
     Throw message) in
  decryptPDF pdfBuffer password ownerPassword =
  match decrypted with
  | None => failure "Decryption returned null"
  | Some text =>
      if falsy (Some text) then failure "Decryption returned null"
      else if startsWith text "Error" then failure text
      else
        (before ++
         [Buffer_from text;
          console_log [Text "✅ Decryption successful"];
          console_log [Text "📦 Output buffer length:";
                       Num (Z.of_nat (List.length (Buffer_from_base64 text)))]],
         Return (Buffer_from_base64 text))
  end.
Proof.
  cbv zeta. unfold decryptPDF, bind, try_catch, log, log_error, throw, ret, buffer_from.
  destruct (DecryptPDF _ _ _ _) as [text|]; [|reflexivity].
  destruct (falsy (Some text)); [reflexivity|].
  destruct (startsWith text "Error"); reflexivity.
Qed.

(** C4.  [encryptPDF] and [decryptPDF] read what the native call returns
    in the same way.  No text at all ([null], or the empty text): they
    throw "Encryption returned null" or "Decryption returned null".  A
    text that begins with "Error": they throw an error with that very
    text.  In both cases nothing is Base64-decoded.  Any other text: they
    return the buffer that [Buffer.from] decodes from it. *)
Theorem wrapper_reads_native_result (pdfBuffer : list byte)
    (userPassword password : string) (ownerPassword : option string)
    (permissions : option (list string)) :
  let size := Z.of_nat (List.length pdfBuffer) in
  let encrypted :=
    EncryptPDF pdfBuffer size userPassword (default_arg userPassword ownerPassword)
      (JSON_stringify (default_arg [DEFAULT] permissions)) in
  let decrypted :=
    DecryptPDF pdfBuffer size password (default_arg EmptyString ownerPassword) in
  let enc := encryptPDF pdfBuffer userPassword ownerPassword permissions in
  let dec := decryptPDF pdfBuffer password ownerPassword in
  (falsy encrypted = true ->
   snd enc = Throw "Encryption returned null" /\ never_decodes (fst enc))
  /\ (forall text, encrypted = Some text -> startsWith text "Error" = true ->
       snd enc = Throw text /\ never_decodes (fst enc))
  /\ (forall text, encrypted = Some text -> falsy encrypted = false ->
       startsWith text "Error" = false ->
       snd enc = Return (Buffer_from_base64 text))
  /\ (falsy decrypted = true ->
      snd dec = Throw "Decryption returned null" /\ never_decodes (fst dec))
  /\ (forall text, decrypted = Some text -> startsWith text "Error" = true ->
       snd dec = Throw text /\ never_decodes (fst dec))
  /\ (forall text, decrypted = Some text -> falsy decrypted = false ->
       startsWith text "Error" = false ->
       snd dec = Return (Buffer_from_base64 text)).
Proof.
  cbv zeta. rewrite encryptPDF_run, decryptPDF_run. cbv zeta.
  set (encrypted := EncryptPDF _ _ _ _ _). set (decrypted := DecryptPDF _ _ _ _).
  assert (Hnever : forall a b c d,
             (forall text, a <> Buffer_from text) ->
             (forall text, b <> Buffer_from text) ->
             (forall text, c <> Buffer_from text) ->
             never_decodes ([a; b; c] ++ [console_error d])).
  { intros a b c d Ha Hb Hc. apply never_decodes_failure; auto. discriminate. }
  split; [|split; [|split; [|split; [|split]]]].
  - intros Hf. destruct encrypted as [text|]; [rewrite Hf|];
      (split; [reflexivity|apply Hnever; discriminate]).
  - intros text -> Hs. rewrite (startsWith_Error_text _ Hs), Hs.
    split; [reflexivity|apply Hnever; discriminate].
  - intros text -> Hf Hs. now rewrite Hf, Hs.
  - intros Hf. destruct decrypted as [text|]; [rewrite Hf|];
      (split; [reflexivity|apply Hnever; discriminate]).
  - intros text -> Hs. rewrite (startsWith_Error_text _ Hs), Hs.
    split; [reflexivity|apply Hnever; discriminate].
  - intros text -> Hf Hs. now rewrite Hf, Hs.
Qed.

End WrapperFacts.

(** * The owner password argument of index.js *)

Section OwnerPassword.
Context `{Wrapper.Host}.

Lemma encryptPDF_calls_native (pdfBuffer : list byte) (userPassword : string)
    (ownerPassword permissions : option _) :
  In (Wrapper.call_EncryptPDF pdfBuffer (Z.of_nat (List.length pdfBuffer))
        userPassword (Wrapper.default_arg userPassword ownerPassword)
        (Wrapper.JSON_stringify (Wrapper.default_arg [Wrapper.DEFAULT] permissions)))
     (fst (Wrapper.encryptPDF pdfBuffer userPassword ownerPassword permissions)).
Proof.
  rewrite encryptPDF_run. cbv zeta.
  assert (Hin : forall (a b c : Wrapper.event) rest, In c (([a; b; c] ++ rest)))
    by (intros; simpl; auto).
  destruct (Wrapper.EncryptPDF _ _ _ _ _) as [text|]; [|apply Hin].
  destruct (Wrapper.falsy (Some text)); [apply Hin|].
  destruct (Wrapper.startsWith text "Error"); apply Hin.
Qed.

(** X12.  The owner password argument of [encryptPDF]: left out, the run
    is the run with the user password as owner password; given, the empty
    one too, it is the owner password of the native call, as it is. *)
Theorem encryptPDF_owner_argument (pdfBuffer : list byte) (userPassword : string)
    (permissions : option (list string)) :
  Wrapper.encryptPDF pdfBuffer userPassword None permissions
  = Wrapper.encryptPDF pdfBuffer userPassword (Some userPassword) permissions
  /\ (forall ownerPassword,
        In (Wrapper.call_EncryptPDF pdfBuffer (Z.of_nat (List.length pdfBuffer))
              userPassword ownerPassword
              (Wrapper.JSON_stringify
                 (Wrapper.default_arg [Wrapper.DEFAULT] permissions)))
           (fst (Wrapper.encryptPDF pdfBuffer userPassword (Some ownerPassword)
                   permissions))).
Proof.
  split; [reflexivity|].
  intros ownerPassword.
  apply (encryptPDF_calls_native pdfBuffer userPassword (Some ownerPassword)).
Qed.

End OwnerPassword.

(** * The model at work *)

Example Unmarshal_permission_names :
  GoJSON.Unmarshal (Sample.JSON_stringify ["print"; "copy"]) = (["print"; "copy"], None).
Proof. reflexivity. Qed.

Example Unmarshal_trailing_comma :
  GoJSON.Unmarshal "[1,]" = ([], Some GoJSON.SyntaxError).
Proof. reflexivity. Qed.

Example Unmarshal_object :
  GoJSON.Unmarshal "{}" = ([], Some (GoJSON.UnmarshalTypeError "object")).
Proof. reflexivity. Qed.

Example Unmarshal_null_element :
  GoJSON.Unmarshal "[null]" = ([""], None).
Proof. reflexivity. Qed.

Example buildPermissionMask_mixed_case :
  @Native.buildPermissionMask Sample.runtime Sample.pdfcpu ["PRINT"; "bogus"; "Copy"]
  = 2064%Z.
Proof. reflexivity. Qed.

(** The scenarios of the test script: decryption with the user password,
    with the owner password, and with a wrong password. *)
Example decrypt_with_user_password :
  snd (@Wrapper.decryptPDF Sample.host Sample.sample_pdf "user123" None)
  = Wrapper.Return Sample.sample_pdf.
Proof. reflexivity. Qed.

Example decrypt_with_owner_password :
  snd (@Wrapper.decryptPDF Sample.host Sample.sample_pdf "owner123" None)
  = Wrapper.Return Sample.sample_pdf.
Proof. reflexivity. Qed.

Example decrypt_with_wrong_password :
  snd (@Wrapper.decryptPDF Sample.host Sample.sample_pdf "wrongpassword" None)
  = Wrapper.Throw
      "Error decrypting PDF: pdfcpu: cannot open the document with wrongpassword".
Proof. reflexivity. Qed.

Example decrypt_retries_with_owner_password :
  map (fun c => match c with
                | Native.Decrypt _ conf | Native.Encrypt _ conf => UserPW conf
                end)
      (fst (@Native.DecryptPDF Sample.pdfcpu Sample.sample_pdf "wrongpassword" "owner123"))
  = ["wrongpassword"; "owner123"].
Proof. reflexivity. Qed.

(** * Concrete inputs *)

(** C2 at the list [print; copy]. *)
Lemma EncryptPDF_custom_permissions_witness :
  @Native.setCustomPerms Sample.runtime ["print"; "copy"] = true
  /\ Permissions (@Native.EncryptPDF_conf Sample.runtime Sample.pdfcpu
                    "user123" "owner123" ["print"; "copy"]) = 2064%Z.
Proof.
  split; [reflexivity|].
  rewrite (proj1 (proj2 (@EncryptPDF_custom_permissions Sample.runtime Sample.pdfcpu
                           "user123" "owner123" ["print"; "copy"])) eq_refl).
  reflexivity.
Defined.

(** C3 at two names the README advertises and the table does not hold. *)
Lemma buildPermissionMask_composition_witness :
  Forall (fun t => @Words.recognized Sample.runtime t = false)
    ["hi_res_print"; "accessibility"]
  /\ @Native.buildPermissionMask Sample.runtime Sample.pdfcpu
       ["hi_res_print"; "accessibility"] = 0%Z
  /\ @PermissionsNone Sample.pdfcpu = 0%Z
  /\ @Native.buildPermissionMask Sample.runtime Sample.pdfcpu ["print"; "default"]
     = @Native.buildPermissionMask Sample.runtime Sample.pdfcpu ["print"].
Proof.
  assert (Hf : Forall (fun t => @Words.recognized Sample.runtime t = false)
                 ["hi_res_print"; "accessibility"])
    by (repeat constructor).
  split; [exact Hf|]. split.
  - exact (proj1 (proj2 (proj2 (proj2
             (@buildPermissionMask_composition Sample.runtime Sample.pdfcpu)))) _ Hf).
  - split; [reflexivity|].
    exact (proj2 (proj2 (proj2 (proj2 (proj2 (proj2
             (@buildPermissionMask_composition Sample.runtime Sample.pdfcpu))))))
             eq_refl ["print"] []).
Defined.

(** C3, with "all-zero": at pdfcpu's value of [model.PermissionsNone] the
    mask of the token [default] is 0xF0C3, not zero, and the token adds
    its bits to the mask of [print]. *)
Lemma buildPermissionMask_default_not_zero :
  @PermissionsNone Sample.pdfcpu_none = 61635%Z
  /\ @Native.buildPermissionMask Sample.runtime Sample.pdfcpu_none ["default"] = 61635%Z
  /\ @Native.buildPermissionMask Sample.runtime Sample.pdfcpu_none ["default"] <> 0%Z
  /\ @Native.buildPermissionMask Sample.runtime Sample.pdfcpu_none ["print"; "default"]
     = 63683%Z
  /\ @Native.buildPermissionMask Sample.runtime Sample.pdfcpu_none ["print"] = 2048%Z
  /\ (forall (R : GoStrings.Runtime) (L : Pdfcpu.Library),
        @PermissionsNone L <> 0%Z ->
        @Native.buildPermissionMask R L ["default"] <> 0%Z).
Proof.
  split; [reflexivity|]. split; [reflexivity|]. split; [discriminate|].
  split; [reflexivity|]. split; [reflexivity|].
  intros R L Hn. exact Hn.
Qed.

(** C7, with "the letter case of any token": the token [print] written
    with the dotless i is outside the vocabulary, as [strings.ToLower]
    leaves that letter alone, while its upper case [PRINT] is the print
    token. *)
Lemma buildPermissionMask_dotless_i :
  (forall (R : GoStrings.Runtime) (L : Pdfcpu.Library),
      @unicode_ToLower_Map R Notions.dotless_print = Notions.dotless_print ->
      @Native.buildPermissionMask R L [Notions.dotless_print] = 0%Z
      /\ @Native.buildPermissionMask R L ["PRINT"] = @PermissionPrintRev3 L)
  /\ @Native.buildPermissionMask Sample.runtime Sample.pdfcpu [Notions.dotless_print]
     = 0%Z
  /\ @Native.buildPermissionMask Sample.runtime Sample.pdfcpu ["PRINT"] = 2048%Z.
Proof.
  split; [|split; reflexivity].
  intros R L E. split; [|reflexivity].
  apply buildPermissionMask_unrecognized.
  constructor; [|constructor].
  unfold Words.recognized, ToLower.
  change (isASCII Notions.dotless_print) with false. cbv iota.
  rewrite E. reflexivity.
Qed.

(** C7: an upper-case token, an unknown one and a repeated one. *)
Lemma buildPermissionMask_rewritten_witness :
  @Notions.rewritten Sample.runtime
    ["PRINT"; "bogus"; "copy"; "print"] ["copy"; "print"]
  /\ @Native.buildPermissionMask Sample.runtime Sample.pdfcpu
       ["PRINT"; "bogus"; "copy"; "print"]
     = @Native.buildPermissionMask Sample.runtime Sample.pdfcpu ["copy"; "print"].
Proof.
  assert (Hr : Words.recased "PRINT" "print").
  { apply (Words.recased_flip "P" "RINT" "rint").
    apply (Words.recased_flip "R" "INT" "int").
    apply (Words.recased_flip "I" "NT" "nt").
    apply (Words.recased_flip "N" "T" "t").
    apply (Words.recased_flip "T" "" ""). apply Words.recased_nil. }
  assert (Hs : @Notions.rewritten Sample.runtime
                 ["PRINT"; "bogus"; "copy"; "print"] ["copy"; "print"]).
  { apply Notions.rewritten_trans with (l' := ["print"; "bogus"; "copy"; "print"]).
    { apply (Notions.rewritten_case [] "PRINT" "print" ["bogus"; "copy"; "print"]);
        [reflexivity|exact Hr]. }
    apply Notions.rewritten_trans with (l' := ["print"; "copy"; "print"]).
    { apply Notions.rewritten_sym.
      apply (Notions.rewritten_unknown ["print"] "bogus" ["copy"; "print"]).
      reflexivity. }
    apply Notions.rewritten_trans with (l' := ["copy"; "print"; "print"]).
    { apply Notions.rewritten_order. apply perm_swap. }
    apply Notions.rewritten_sym. apply (Notions.rewritten_twice ["copy"] "print" []). }
  split; [exact Hs|].
  exact (@buildPermissionMask_rewritten Sample.runtime Sample.pdfcpu _ _ Hs).
Defined.

(** C10 at [DEFAULT]. *)
Lemma EncryptPDF_default_any_case_witness :
  @ToLower Sample.runtime "DEFAULT" = "default"
  /\ @Native.EncryptPDF_conf Sample.runtime Sample.pdfcpu "user123" "owner123" ["DEFAULT"]
     = @Native.EncryptPDF_conf Sample.runtime Sample.pdfcpu "user123" "owner123" [].
Proof.
  split; [reflexivity|].
  exact (proj2 (proj2 (@EncryptPDF_default_any_case Sample.runtime Sample.pdfcpu
                         "user123" "owner123" "DEFAULT" eq_refl))).
Defined.

(** C8 with two wrong passwords. *)
Lemma DecryptPDF_second_error_witness :
  "alsowrong" <> "" /\ "alsowrong" <> "wrongpassword"
  /\ snd (@Native.DecryptPDF Sample.pdfcpu Sample.sample_pdf "wrongpassword" "alsowrong")
     = ("Error decrypting PDF: "
        ++ "pdfcpu: cannot open the document with alsowrong")%string.
Proof.
  split; [discriminate|]. split; [discriminate|].
  apply (@DecryptPDF_second_error Sample.pdfcpu Sample.sample_pdf
           "wrongpassword" "alsowrong"
           "pdfcpu: cannot open the document with wrongpassword"
           "pdfcpu: cannot open the document with alsowrong"
           (set_OwnerPW "wrongpassword"
              (set_UserPW "wrongpassword" (@NewDefaultConfiguration Sample.pdfcpu)))
           (set_OwnerPW "alsowrong"
              (set_UserPW "alsowrong" (@NewDefaultConfiguration Sample.pdfcpu))));
    [reflexivity|discriminate|discriminate|reflexivity].
Defined.

(** C9, with "treated as empty": an array that holds a number is not an
    array of strings and [json.Unmarshal] reports it, yet the permission
    list is not empty and the permissions of the configuration are
    custom. *)
Lemma EncryptPDF_number_among_permissions :
  snd (GoJSON.Unmarshal Sample.print_and_number)
  = Some (GoJSON.UnmarshalTypeError "number")
  /\ fst (GoJSON.Unmarshal Sample.print_and_number) = ["print"; ""]
  /\ (forall (R : GoStrings.Runtime) (L : Pdfcpu.Library) pdfBytes userPw ownerPw,
        fst (@Native.EncryptPDF R L pdfBytes userPw ownerPw Sample.print_and_number)
        = [Native.Encrypt pdfBytes
             (set_Permissions PermissionPrintRev3
                (@NewAESConfiguration L userPw ownerPw 256))]).
Proof.
  split; [reflexivity|]. split; reflexivity.
Qed.

(** C9 at a text that is not JSON. *)
Lemma EncryptPDF_permissions_text_witness :
  GoJSON.parse "{oops" = None
  /\ fst (GoJSON.Unmarshal "{oops") = []
  /\ @Native.EncryptPDF_conf Sample.runtime Sample.pdfcpu "user123" "owner123"
       (fst (GoJSON.Unmarshal "{oops"))
     = @NewAESConfiguration Sample.pdfcpu "user123" "owner123" 256.
Proof.
  split; [reflexivity|].
  exact (proj1 (proj2 (@EncryptPDF_permissions_text Sample.runtime Sample.pdfcpu
                         Sample.sample_pdf "user123" "owner123"))
           "{oops" (or_introl eq_refl)).
Defined.

(** C6 on an Intel Mac and on FreeBSD. *)
Lemma getLibraryPath_mapping_witness :
  "x64" <> "arm64"
  /\ @Wrapper.getLibraryPath Sample.host "darwin" "x64"
     = Wrapper.Return "/srv/app/lib/pdfencrypt_darwin_x64.dylib"
  /\ @Wrapper.getLibraryPath Sample.host "freebsd" "x64"
     = Wrapper.Throw "Unsupported platform/architecture: freebsd/x64".
Proof.
  assert (Ha : "x64" <> "arm64") by discriminate.
  split; [exact Ha|]. split.
  - exact (proj1 (proj2 (proj2 (@getLibraryPath_mapping Sample.host))) "x64" Ha).
  - apply (proj2 (proj2 (proj2 (proj2 (@getLibraryPath_mapping Sample.host))))
             "freebsd" "x64").
    + intros [E _]; discriminate.
    + discriminate.
    + intros [E _]; discriminate.
Defined.

(** C4 at a wrong password: the native text begins with Error. *)
Lemma wrapper_reads_native_result_witness :
  snd (@Wrapper.decryptPDF Sample.host Sample.sample_pdf "wrongpassword" None)
  = Wrapper.Throw
      "Error decrypting PDF: pdfcpu: cannot open the document with wrongpassword"
  /\ Words.never_decodes
       (fst (@Wrapper.decryptPDF Sample.host Sample.sample_pdf "wrongpassword" None)).
Proof.
  exact (proj1 (proj2 (proj2 (proj2 (proj2
           (@wrapper_reads_native_result Sample.host Sample.sample_pdf
              "user123" "wrongpassword" None None)))))
           "Error decrypting PDF: pdfcpu: cannot open the document with wrongpassword"
           eq_refl eq_refl).
Defined.

(** * More about src/main.go *)

Section MoreMaskFacts.
Context `{GoStrings.Runtime} `{Pdfcpu.Library}.

Import Native Words Notions.

Lemma land_lor_absorb (a b : Z) : Z.land a (Z.lor a b) = a.
Proof.
  apply Z.bits_inj'. intros n _.
  rewrite Z.land_spec, Z.lor_spec. now destruct (Z.testbit a n), (Z.testbit b n).
Qed.

(** X1.  A bit is set in the mask exactly when it is set in the flag of
    one of the tokens of the list, where the flag of a token is pdfcpu's
    flag for the word of the vocabulary it lower-cases to, and zero for a
    token outside the vocabulary. *)
Theorem buildPermissionMask_bits (perms : list string) (i : Z) :
  Z.testbit (buildPermissionMask perms) i
  = existsb (fun t => Z.testbit (flag_of t) i) perms
  /\ (forall t, recognized t = false -> flag_of t = 0%Z)
  /\ (forall t, ToLower t = "print" -> flag_of t = PermissionPrintRev3)
  /\ (forall t, ToLower t = "copy" -> flag_of t = PermissionExtract)
  /\ (forall t, ToLower t = "annotate" -> flag_of t = PermissionModAnnFillForm)
  /\ (forall t, ToLower t = "forms" -> flag_of t = PermissionFillRev3)
  /\ (forall t, ToLower t = "assemble" -> flag_of t = PermissionAssembleRev3)
  /\ (forall t, ToLower t = "all" -> flag_of t = PermissionsAll)
  /\ (forall t, ToLower t = "modify" -> flag_of t = PermissionModify)
  /\ (forall t, ToLower t = "default" -> flag_of t = PermissionsNone).
Proof.
  split.
  { induction perms as [|t perms IH].
    - apply Z.testbit_0_l.
    - rewrite buildPermissionMask_cons, Z.lor_spec, IH. reflexivity. }
  split; [intros t Ht; apply mask_step_unrecognized, Ht|].
  repeat split; intros t E; unfold flag_of, mask_step; rewrite E; reflexivity.
Qed.

(** X2.  The mask of two lists put together is the or of their masks; a
    list written twice has the mask of the list; the mask of a list is
    contained in the mask of any list that extends it, and the flag of
    each of its tokens is contained in its mask. *)
Theorem buildPermissionMask_concat (l1 l2 : list string) :
  buildPermissionMask (l1 ++ l2)
  = Z.lor (buildPermissionMask l1) (buildPermissionMask l2)
  /\ buildPermissionMask (l1 ++ l1) = buildPermissionMask l1
  /\ Z.land (buildPermissionMask l1) (buildPermissionMask (l1 ++ l2))
     = buildPermissionMask l1
  /\ (forall t, In t l1 ->
        Z.land (flag_of t) (buildPermissionMask l1) = flag_of t).
Proof.
  split; [apply buildPermissionMask_app|].
  split; [now rewrite buildPermissionMask_app, Z.lor_diag|].
  split; [rewrite buildPermissionMask_app; apply land_lor_absorb|].
  intros t Ht. apply in_split in Ht. destruct Ht as [before [after ->]].
  rewrite buildPermissionMask_app, buildPermissionMask_cons.
  fold (flag_of t).
  rewrite (Z.lor_comm (buildPermissionMask before)), <- Z.lor_assoc.
  apply land_lor_absorb.
Qed.

(** X3.  At the call site a token outside the vocabulary is not ignored:
    a list that is not empty and holds only such tokens replaces the
    built-in permissions of the configuration by the zero mask.  A list
    of two tokens or more always sets custom permissions, also when every
    token is [default]. *)
Theorem EncryptPDF_conf_overrides (userPw ownerPw : string) :
  (forall perms,
      perms <> [] ->
      Forall (fun t => recognized t = false) perms ->
      EncryptPDF_conf userPw ownerPw perms
      = set_Permissions 0%Z (NewAESConfiguration userPw ownerPw 256))
  /\ (forall t1 t2 rest,
        EncryptPDF_conf userPw ownerPw (t1 :: t2 :: rest)
        = set_Permissions (buildPermissionMask (t1 :: t2 :: rest))
            (NewAESConfiguration userPw ownerPw 256)).
Proof.
  split.
  - intros perms Hne Hall.
    assert (Hs : setCustomPerms perms = true).
    { apply setCustomPerms_spec. split; [exact Hne|].
      intros [t [-> Ht]]. inversion Hall as [|? ? Hr _]; subst.
      unfold recognized in Hr. rewrite Ht in Hr. discriminate. }
    unfold EncryptPDF_conf. rewrite Hs.
    now rewrite (buildPermissionMask_unrecognized _ Hall).
  - reflexivity.
Qed.

End MoreMaskFacts.

Section MoreDecryptFacts.
Context `{Pdfcpu.Library}.

Import Native Notions.

Lemma DecryptPDF_shape (pdfBytes : list byte) (password ownerPw : string) :
  exists before conf,
    fst (DecryptPDF pdfBytes password ownerPw) = before ++ [Decrypt pdfBytes conf]
    /\ snd (DecryptPDF pdfBytes password ownerPw)
       = result_text "decrypting" (snd (api_Decrypt pdfBytes conf))
    /\ Forall (fun c => exists conf', c = Decrypt pdfBytes conf') before.
Proof.
  unfold DecryptPDF.
  destruct (api_Decrypt pdfBytes _) as [conf1 r1] eqn:E1.
  destruct (failed r1 && negb (String.eqb ownerPw "")
            && negb (String.eqb ownerPw password)).
  - eexists [_], _. simpl. split; [reflexivity|]. split; [reflexivity|].
    repeat constructor; eexists; reflexivity.
  - exists [].  eexists. simpl. split; [reflexivity|]. split; [now rewrite E1|].
    constructor.
Qed.

(** X4.  Every call [DecryptPDF] makes is a decryption of the bytes it
    was given, and the text it returns is the outcome of the last call it
    made: the error of that call after "Error decrypting PDF: ", or the
    Base64 text of its output. *)
Theorem DecryptPDF_last_call (pdfBytes : list byte) (password ownerPw : string) :
  exists before conf,
    fst (DecryptPDF pdfBytes password ownerPw) = before ++ [Decrypt pdfBytes conf]
    /\ snd (DecryptPDF pdfBytes password ownerPw)
       = result_text "decrypting" (snd (api_Decrypt pdfBytes conf))
    /\ Forall (fun c => exists conf', c = Decrypt pdfBytes conf') before.
Proof. apply DecryptPDF_shape. Qed.

(** X5.  A secondary password that is empty, or equal to the primary
    one, changes nothing; and when the first attempt succeeds, the
    secondary password is never looked at. *)
Theorem DecryptPDF_secondary_unused (pdfBytes : list byte) (password : string) :
  DecryptPDF pdfBytes password password = DecryptPDF pdfBytes password ""
  /\ (forall ownerPw,
        failed (snd (api_Decrypt pdfBytes
                       (set_OwnerPW password
                          (set_UserPW password NewDefaultConfiguration)))) = false ->
        DecryptPDF pdfBytes password ownerPw = DecryptPDF pdfBytes password "").
Proof.
  split.
  - unfold DecryptPDF.
    destruct (api_Decrypt pdfBytes _) as [conf1 r1].
    rewrite String.eqb_refl. simpl. now rewrite !andb_false_r.
  - intros ownerPw. unfold DecryptPDF.
    destruct (api_Decrypt pdfBytes _) as [conf1 r1]. simpl.
    now intros ->.
Qed.

End MoreDecryptFacts.

Section TextFacts.
Context `{GoStrings.Runtime} `{Pdfcpu.Library}.

Import Native Notions.

Lemma byte_shiftr_10 (b : byte) : N.shiftr (Byte.to_N b) 10 = 0%N.
Proof. destruct b; reflexivity. Qed.

Lemma byte_shiftr_18 (b : byte) : N.shiftr (Byte.to_N b) 18 = 0%N.
Proof. destruct b; reflexivity. Qed.

(** The first Base64 character depends on the top six bits of the first
    byte alone. *)
Lemma Encode_head (a : byte) (rest : list byte) :
  exists tail,
    GoBase64.Encode (a :: rest)
    = String (GoBase64.digit (N.shiftr (Byte.to_N a) 2)) tail.
Proof.
  assert (H16 : forall x, N.shiftr (N.shiftl x 16) 18 = N.shiftr x 2)
    by (intros; now rewrite N.shiftr_shiftl_r).
  assert (H8 : forall x, N.shiftr (N.shiftl x 8) 18 = N.shiftr x 10)
    by (intros; now rewrite N.shiftr_shiftl_r).
  destruct rest as [|b [|c rest]]; cbn [GoBase64.Encode]; cbv zeta;
    eexists; f_equal; f_equal.
  - apply H16.
  - now rewrite N.shiftr_lor, H16, H8, byte_shiftr_10, N.lor_0_r.
  - now rewrite !N.shiftr_lor, H16, H8, byte_shiftr_10, byte_shiftr_18, !N.lor_0_r.
Qed.

Lemma Encode_not_Error (a : byte) (rest : list byte) :
  N.shiftr (Byte.to_N a) 2 <> 4%N ->
  String.prefix "Error" (GoBase64.Encode (a :: rest)) = false.
Proof.
  intros Ha. destruct (Encode_head a rest) as [tail ->].
  destruct a; try reflexivity; exfalso; apply Ha; reflexivity.
Qed.

Lemma Encode_Error (d : byte) (rest : list byte) :
  N.shiftr (Byte.to_N d) 2 = 43%N ->
  String.prefix "Error"
    (GoBase64.Encode (Byte.x12 :: Byte.xba :: Byte.xe8 :: d :: rest)) = true.
Proof.
  intros Hd.
  change (GoBase64.Encode (Byte.x12 :: Byte.xba :: Byte.xe8 :: d :: rest))
    with (String "E" (String "r" (String "r" (String "o"
            (GoBase64.Encode (d :: rest)))))).
  destruct (Encode_head d rest) as [tail ->]. rewrite Hd.
  now destruct tail.
Qed.

(** X6.  The text [EncryptPDF] returns begins with "Error encrypting
    PDF: " when [api.Encrypt] fails.  When it succeeds, the text is empty
    for an empty output; it does not begin with "Error" for an output
    whose first byte is not one of 0x10 to 0x13 (a PDF begins with a
    percent sign); and it does begin with "Error" for an output that
    begins with the bytes 0x12 0xBA 0xE8 and one of 0xAC to 0xAF. *)
Theorem EncryptPDF_text_prefix (pdfBytes : list byte)
    (userPw ownerPw permissionsJSON : string) :
  let conf := EncryptPDF_conf userPw ownerPw (fst (GoJSON.Unmarshal permissionsJSON)) in
  let text := snd (EncryptPDF pdfBytes userPw ownerPw permissionsJSON) in
  (forall err, api_Encrypt pdfBytes conf = inl err ->
     String.prefix "Error encrypting PDF: " text = true)
  /\ (api_Encrypt pdfBytes conf = inr [] -> text = EmptyString)
  /\ (forall a rest, api_Encrypt pdfBytes conf = inr (a :: rest) ->
       N.shiftr (Byte.to_N a) 2 <> 4%N ->
       String.prefix "Error" text = false)
  /\ (forall d rest,
       api_Encrypt pdfBytes conf
       = inr (Byte.x12 :: Byte.xba :: Byte.xe8 :: d :: rest) ->
       N.shiftr (Byte.to_N d) 2 = 43%N ->
       String.prefix "Error" text = true).
Proof.
  cbv zeta. unfold EncryptPDF. cbn [snd].
  split; [|split; [|split]].
  - intros err ->. now destruct err.
  - intros ->. reflexivity.
  - intros a rest -> Ha. now apply Encode_not_Error.
  - intros d rest -> Hd. now apply Encode_Error.
Qed.

End TextFacts.

(** * More about index.js *)

Section MoreWrapperFacts.
Context `{Wrapper.Host}.

Import Wrapper Words.

Ltac by_reply reply :=
  let text := fresh "text" in
  let Hf := fresh "Hf" in
  let Hs := fresh "Hs" in
  destruct reply as [text|];
  [destruct (falsy (Some text)) eqn:Hf;
   [|destruct (startsWith text "Error") eqn:Hs]|].

Ltac in_events :=
  repeat match goal with
         | H : In _ (_ ++ _) |- _ => cbn [app] in H
         | H : In _ (_ :: _) |- _ => destruct H as [H|H]
         | H : In _ [] |- _ => destruct H
         | H : _ = _ |- _ => discriminate H
         end.

(** X7.  A buffer that [encryptPDF] or [decryptPDF] returns was decoded
    by [Buffer.from] from the text of the native call, and that text is
    not empty and does not begin with "Error". *)
Theorem wrapper_returns_decoded (pdfBuffer : list byte)
    (userPassword password : string) (ownerPassword : option string)
    (permissions : option (list string)) (buffer : list byte) :
  let size := Z.of_nat (List.length pdfBuffer) in
  let encrypted :=
    EncryptPDF pdfBuffer size userPassword (default_arg userPassword ownerPassword)
      (JSON_stringify (default_arg [DEFAULT] permissions)) in
  let decrypted :=
    DecryptPDF pdfBuffer size password (default_arg EmptyString ownerPassword) in
  let enc := encryptPDF pdfBuffer userPassword ownerPassword permissions in
  let dec := decryptPDF pdfBuffer password ownerPassword in
  (snd enc = Return buffer ->
   exists text,
     encrypted = Some text /\ text <> EmptyString
     /\ startsWith text "Error" = false
     /\ buffer = Buffer_from_base64 text /\ In (Buffer_from text) (fst enc))
  /\ (snd dec = Return buffer ->
      exists text,
        decrypted = Some text /\ text <> EmptyString
        /\ startsWith text "Error" = false
        /\ buffer = Buffer_from_base64 text /\ In (Buffer_from text) (fst dec)).
Proof.
  cbv zeta. rewrite encryptPDF_run, decryptPDF_run. cbv zeta.
  split.
  - by_reply (EncryptPDF pdfBuffer (Z.of_nat (List.length pdfBuffer)) userPassword
                (default_arg userPassword ownerPassword)
                (JSON_stringify (default_arg [DEFAULT] permissions)));
      cbn [snd fst]; try discriminate.
    intros E. injection E as <-. exists text.
    split; [reflexivity|]. split; [now destruct text|]. split; [assumption|].
    split; [reflexivity|]. simpl. auto.
  - by_reply (DecryptPDF pdfBuffer (Z.of_nat (List.length pdfBuffer)) password
                (default_arg EmptyString ownerPassword));
      cbn [snd fst]; try discriminate.
    intros E. injection E as <-. exists text.
    split; [reflexivity|]. split; [now destruct text|]. split; [assumption|].
    split; [reflexivity|]. simpl. auto.
Qed.

(** X8.  [encryptPDF] and [decryptPDF] write to [console.error] exactly
    when they throw, once, and with the error they throw. *)
Theorem wrapper_logs_what_it_throws (pdfBuffer : list byte)
    (userPassword password : string) (ownerPassword : option string)
    (permissions : option (list string)) :
  let enc := encryptPDF pdfBuffer userPassword ownerPassword permissions in
  let dec := decryptPDF pdfBuffer password ownerPassword in
  (forall args,
      In (console_error args) (fst enc) <->
      exists message,
        snd enc = Throw message
        /\ args = [Text "❌ Encryption failed:"; Err message])
  /\ (forall args,
        In (console_error args) (fst dec) <->
        exists message,
          snd dec = Throw message
          /\ args = [Text "❌ Decryption failed:"; Err message]).
Proof.
  cbv zeta. rewrite encryptPDF_run, decryptPDF_run. cbv zeta.
  split; intros args.
  - by_reply (EncryptPDF pdfBuffer (Z.of_nat (List.length pdfBuffer)) userPassword
                (default_arg userPassword ownerPassword)
                (JSON_stringify (default_arg [DEFAULT] permissions)));
      cbn [snd fst];
      (split;
       [ intros Hin; in_events;
         try (injection Hin as <-; eexists; split; reflexivity)
       | intros [message [E ->]]; try discriminate E;
         injection E as <-; simpl; auto 6 ]).
  - by_reply (DecryptPDF pdfBuffer (Z.of_nat (List.length pdfBuffer)) password
                (default_arg EmptyString ownerPassword));
      cbn [snd fst];
      (split;
       [ intros Hin; in_events;
         try (injection Hin as <-; eexists; split; reflexivity)
       | intros [message [E ->]]; try discriminate E;
         injection E as <-; simpl; auto 6 ]).
Qed.

End MoreWrapperFacts.

(** * index.js and main.go together *)

Section RoundTrip.

Import GoJSON NodeJSON.

Lemma append_assoc (s1 s2 s3 : string) :
  ((s1 ++ s2) ++ s3 = s1 ++ (s2 ++ s3))%string.
Proof. induction s1; simpl; congruence. Qed.

Lemma append_empty_r (s : string) : (s ++ "" = s)%string.
Proof. induction s; simpl; congruence. Qed.

Lemma text_cons (c : ascii) (acc : list ascii) :
  text (c :: acc) = (text acc ++ String c "")%string.
Proof.
  unfold text. simpl rev.
  induction (rev acc) as [|a l IH]; simpl; congruence.
Qed.

(** The lexer reads a quoted string back as one token. *)
Lemma lex_quote_body (s : string) : forall acc rest,
  isASCII s = true ->
  lex (LString acc) (quote_body s ++ String (ascii_of_N 34) rest)
  = match lex LIdle rest with
    | Some ts => Some (TString (text acc ++ quote_body s) :: ts)
    | None => None
    end.
Proof.
  induction s as [|c s IH]; intros acc rest Hs.
  - simpl. destruct (lex LIdle rest); [|reflexivity].
    now rewrite append_empty_r.
  - simpl in Hs. apply andb_true_iff in Hs. destruct Hs as [Hc Hs].
    cbn [quote_body]. rewrite append_assoc.
    destruct c as [b0 b1 b2 b3 b4 b5 b6 b7].
    destruct b0, b1, b2, b3, b4, b5, b6, b7; try discriminate Hc; clear Hc;
      (repeat (cbn [lex]; cbn -[lex quote_body text]);
       rewrite (IH _ _ Hs);
       destruct (lex LIdle rest); [|reflexivity];
       rewrite ?text_cons, ?append_assoc; reflexivity).
Qed.

Lemma unquote_quote_char (c : ascii) (q : string) :
  isASCIIByte c = true ->
  unquote (quote_char c ++ q) = String c (unquote q).
Proof.
  intros Hc. destruct c as [b0 b1 b2 b3 b4 b5 b6 b7].
  destruct b0, b1, b2, b3, b4, b5, b6, b7; try discriminate Hc; reflexivity.
Qed.

(** Unquoting undoes the quoting. *)
Lemma unquote_quote_body (s : string) :
  isASCII s = true -> unquote (quote_body s) = s.
Proof.
  induction s as [|c s IH]; intros Hs; [reflexivity|].
  simpl in Hs. apply andb_true_iff in Hs. destruct Hs as [Hc Hs].
  cbn [quote_body]. now rewrite (unquote_quote_char _ _ Hc), (IH Hs).
Qed.

Lemma lex_QuoteJSONString (s rest : string) :
  isASCII s = true ->
  lex LIdle (QuoteJSONString s ++ rest)
  = match lex LIdle rest with
    | Some ts => Some (TString (quote_body s) :: ts)
    | None => None
    end.
Proof.
  intros Hs. unfold QuoteJSONString.
  change ((quote ++ quote_body s ++ quote) ++ rest)%string
    with (String (ascii_of_N 34) ((quote_body s ++ quote) ++ rest))%string.
  rewrite append_assoc. cbn [lex].
  change (lex_step LIdle (ascii_of_N 34)) with (Some (LString [], @nil token)).
  cbv beta iota. change (quote ++ rest)%string with (String (ascii_of_N 34) rest).
  rewrite (lex_quote_body s [] rest Hs).
  now destruct (lex LIdle rest).
Qed.

Lemma lex_elements (value : list string) :
  Forall (fun s => isASCII s = true) value ->
  lex LIdle (String.concat "," (map QuoteJSONString value) ++ "]")
  = Some (Notions.element_tokens value ++ [TRBracket]).
Proof.
  induction 1 as [|x value Hx Hv IH]; [reflexivity|].
  destruct value as [|y value].
  - cbn [map String.concat Notions.element_tokens].
    now rewrite (lex_QuoteJSONString x "]" Hx).
  - change (String.concat "," (map QuoteJSONString (x :: y :: value)))
      with (QuoteJSONString x ++ "," ++ String.concat "," (map QuoteJSONString (y :: value)))%string.
    rewrite append_assoc, (lex_QuoteJSONString _ _ Hx).
    change (("," ++ String.concat "," (map QuoteJSONString (y :: value))) ++ "]")%string
      with (String "," (String.concat "," (map QuoteJSONString (y :: value)) ++ "]"))%string.
    cbn [lex]. change (lex_step LIdle ",") with (Some (LIdle, [TComma])).
    cbv beta iota. rewrite IH. reflexivity.
Qed.

Lemma parse_elements (value : list string) : forall elems e,
  value <> [] ->
  e = EValue \/ e = EValueOrClose ->
  parse_tokens ([InArray elems], e) (Notions.element_tokens value ++ [TRBracket])
  = Some (Array (rev elems ++ map (fun x => Str (unquote (quote_body x))) value)).
Proof.
  induction value as [|x value IH]; intros elems e Hne He; [now elim Hne|].
  destruct value as [|y value].
  - destruct He as [-> | ->]; simpl; reflexivity.
  - assert (Hstep : parse_tokens ([InArray elems], e)
                      (Notions.element_tokens (x :: y :: value) ++ [TRBracket])
                    = parse_tokens ([InArray (Str (unquote (quote_body x)) :: elems)], EValue)
                        (Notions.element_tokens (y :: value) ++ [TRBracket]))
      by (destruct He as [-> | ->]; reflexivity).
    rewrite Hstep, IH; [|discriminate|now left].
    simpl rev. now rewrite <- app_assoc.
Qed.

Lemma parse_stringify (value : list string) :
  Forall (fun s => isASCII s = true) value ->
  parse (stringify value) = Some (Array (map Str value)).
Proof.
  intros Hv. unfold parse, stringify.
  change ("[" ++ String.concat "," (map QuoteJSONString value) ++ "]")%string
    with (String "[" (String.concat "," (map QuoteJSONString value) ++ "]"))%string.
  cbn [lex]. change (lex_step LIdle "[") with (Some (LIdle, [TLBracket])).
  cbv beta iota. rewrite (lex_elements _ Hv). cbn [app].
  change (parse_tokens ([], EValue)
            (TLBracket :: Notions.element_tokens value ++ [TRBracket]))
    with (parse_tokens ([InArray []], EValueOrClose)
            (Notions.element_tokens value ++ [TRBracket])).
  destruct value as [|x value]; [reflexivity|].
  rewrite parse_elements; [|discriminate|now right].
  cbn [rev app]. f_equal. f_equal.
  apply map_ext_Forall. revert Hv. apply Forall_impl.
  intros s Hs. now rewrite unquote_quote_body.
Qed.

Lemma Unmarshal_stringify (value : list string) :
  Forall (fun s => isASCII s = true) value ->
  Unmarshal (stringify value) = (value, None).
Proof.
  intros Hv. unfold Unmarshal. rewrite (parse_stringify _ Hv).
  rewrite !map_map. cbn [store_element fst snd].
  f_equal; [apply map_id|].
  clear Hv. induction value; simpl; auto.
Qed.

End RoundTrip.


Section LoadedFacts.
Context `{Wrapper.Host} `{GoStrings.Runtime} `{Pdfcpu.Library}.
Variable max_string : Z.

Import Loaded.

Lemma GoString_app (a b : string) :
  nul_free a = true -> Koffi.GoString (a ++ b) = (a ++ Koffi.GoString b)%string.
Proof.
  induction a as [|c a IH]; intros Ha; [reflexivity|].
  simpl in *. apply andb_true_iff in Ha. destruct Ha as [Hc Ha].
  destruct (N_of_ascii c =? 0)%N; [discriminate|]. now rewrite IH.
Qed.

Lemma GoString_nul_free (s : string) :
  nul_free s = true -> Koffi.GoString s = s.
Proof.
  intros Hs. rewrite <- (append_empty_r s) at 1.
  now rewrite (GoString_app _ _ Hs), append_empty_r.
Qed.

Lemma nul_free_app (a b : string) :
  nul_free (a ++ b) = nul_free a && nul_free b.
Proof.
  induction a as [|c a IH]; [reflexivity|]. simpl. now rewrite IH, andb_assoc.
Qed.

Lemma nul_free_quote_body (s : string) : nul_free (NodeJSON.quote_body s) = true.
Proof.
  induction s as [|c s IH]; [reflexivity|].
  cbn [NodeJSON.quote_body]. rewrite nul_free_app, IH, andb_true_r.
  destruct c as [b0 b1 b2 b3 b4 b5 b6 b7].
  destruct b0, b1, b2, b3, b4, b5, b6, b7; reflexivity.
Qed.

Lemma nul_free_stringify (value : list string) :
  nul_free (NodeJSON.stringify value) = true.
Proof.
  unfold NodeJSON.stringify.
  change (nul_free (String.concat "," (map NodeJSON.QuoteJSONString value) ++ "]") = true).
  rewrite nul_free_app, andb_true_r.
  induction value as [|x [|y value] IH]; [reflexivity| |].
  - cbn [map String.concat]. unfold NodeJSON.QuoteJSONString.
    now rewrite !nul_free_app, nul_free_quote_body.
  - change (String.concat "," (map NodeJSON.QuoteJSONString (x :: y :: value)))
      with (NodeJSON.QuoteJSONString x ++ ","
            ++ String.concat "," (map NodeJSON.QuoteJSONString (y :: value)))%string.
    rewrite !nul_free_app, IH. unfold NodeJSON.QuoteJSONString.
    now rewrite !nul_free_app, nul_free_quote_body.
Qed.

Lemma digit_not_nul (n : N) : (N_of_ascii (GoBase64.digit n) =? 0)%N = false.
Proof.
  unfold GoBase64.digit.
  assert (Hk : (N.land n 63 < 64)%N).
  { change 63%N with (N.ones 6). rewrite N.land_ones. now apply N.mod_lt. }
  destruct (N.land n 63) as [|p]; [reflexivity|].
  repeat (destruct p as [p|p|]; try lia); reflexivity.
Qed.

Lemma nul_free_Encode (src : list byte) : nul_free (GoBase64.Encode src) = true.
Proof.
  remember (List.length src) as n eqn:Hn. revert src Hn.
  induction n as [n IH] using lt_wf_ind. intros src Hn.
  destruct src as [|a [|b [|c rest]]]; cbn [GoBase64.Encode]; cbv zeta;
    cbn [nul_free]; rewrite ?digit_not_nul; try reflexivity.
  simpl negb. simpl andb. apply (IH (List.length rest)); [|reflexivity].
  subst n. simpl. lia.
Qed.

Lemma GoBytes_whole (buffer pdfBytes : list byte) :
  Koffi.GoBytes buffer (Z.of_nat (List.length buffer)) = Some pdfBytes ->
  pdfBytes = buffer /\ (Z.of_nat (List.length buffer) <= Koffi.INT_MAX)%Z.
Proof.
  unfold Koffi.GoBytes.
  destruct (Z.of_nat (List.length buffer) <=? Koffi.INT_MAX)%Z eqn:E;
    [|rewrite andb_false_r; discriminate].
  destruct (_ && _ && _); [|discriminate].
  rewrite Nat2Z.id, firstn_all. intros [= <-]. split; [reflexivity|].
  now apply Z.leb_le.
Qed.

Lemma read_back_answers (result : string) (reply : option string) :
  Koffi.answers (Koffi.read_back max_string result) reply ->
  reply = Some (Koffi.GoString result).
Proof.
  unfold Koffi.read_back. cbv zeta.
  destruct (_ <=? _)%Z; simpl; [trivial|contradiction].
Qed.

(** A call of the bound [EncryptPDF] with the length of the buffer that
    came back: the length is one a C [int] holds, and the text is the one
    main.go returned for the whole buffer. *)
Lemma EncryptPDF_answers (pdfBuffer : list byte) (userPw ownerPw json : string)
    (reply : option string) :
  Koffi.answers
    (Koffi.EncryptPDF max_string pdfBuffer (Z.of_nat (List.length pdfBuffer))
       userPw ownerPw json) reply ->
  reply = Some (Koffi.GoString
                  (snd (Native.EncryptPDF pdfBuffer (Koffi.GoString userPw)
                          (Koffi.GoString ownerPw) (Koffi.GoString json))))
  /\ (Z.of_nat (List.length pdfBuffer) <= Koffi.INT_MAX)%Z.
Proof.
  unfold Koffi.EncryptPDF.
  destruct (Koffi.GoBytes _ _) as [pdfBytes|] eqn:E; [|contradiction].
  apply GoBytes_whole in E. destruct E as [-> Hle].
  intros Ha. split; [now apply read_back_answers|exact Hle].
Qed.

Lemma DecryptPDF_answers (pdfBuffer : list byte) (password ownerPw : string)
    (reply : option string) :
  Koffi.answers
    (Koffi.DecryptPDF max_string pdfBuffer (Z.of_nat (List.length pdfBuffer))
       password ownerPw) reply ->
  reply = Some (Koffi.GoString
                  (snd (Native.DecryptPDF pdfBuffer (Koffi.GoString password)
                          (Koffi.GoString ownerPw))))
  /\ (Z.of_nat (List.length pdfBuffer) <= Koffi.INT_MAX)%Z.
Proof.
  unfold Koffi.DecryptPDF.
  destruct (Koffi.GoBytes _ _) as [pdfBytes|] eqn:E; [|contradiction].
  apply GoBytes_whole in E. destruct E as [-> Hle].
  intros Ha. split; [now apply read_back_answers|exact Hle].
Qed.

(** X9.  The permission list survives the way from [encryptPDF] to
    [EncryptPDF]: for tokens of ASCII characters, what [json.Unmarshal]
    reads from the text [JSON.stringify] wrote is the list itself,
    without an error, and [EncryptPDF] calls [api.Encrypt] with the
    configuration built for that list. *)
Theorem stringify_then_Unmarshal (permissions : list string)
    (pdfBytes : list byte) (userPw ownerPw : string) :
  Forall (fun t => isASCII t = true) permissions ->
  GoJSON.Unmarshal (NodeJSON.stringify permissions) = (permissions, None)
  /\ fst (Native.EncryptPDF pdfBytes userPw ownerPw (NodeJSON.stringify permissions))
     = [Native.Encrypt pdfBytes (Native.EncryptPDF_conf userPw ownerPw permissions)].
Proof.
  intros Hp. split; [now apply Unmarshal_stringify|].
  unfold Native.EncryptPDF. now rewrite (Unmarshal_stringify _ Hp).
Qed.

Lemma Encode_cons_not_empty (a : byte) (rest : list byte) :
  Wrapper.falsy (Some (GoBase64.Encode (a :: rest))) = false.
Proof. destruct (Encode_head a rest) as [tail ->]. reflexivity. Qed.

(** The way the wrapper ends on the text the loaded library returns for
    an outcome of pdfcpu. *)
Lemma reads_outcome (what failure : string) (r : error + list byte) :
  Loaded.nul_free what = true ->
  (forall tail, Wrapper.startsWith (what ++ tail) "Error" = true) ->
  (forall tail, Wrapper.falsy (Some (what ++ tail)%string) = false) ->
  let text :=
    Koffi.GoString
      match r with
      | inl err => (what ++ err)%string
      | inr encodedOutput => GoBase64.Encode encodedOutput
      end in
  (if Wrapper.falsy (Some text) then @Wrapper.Throw (list byte) failure
   else if Wrapper.startsWith text "Error" then Wrapper.Throw text
        else Wrapper.Return (Wrapper.Buffer_from_base64 text))
  = match r with
    | inl err => Wrapper.Throw (what ++ Koffi.GoString err)%string
    | inr [] => Wrapper.Throw failure
    | inr out =>
        if String.prefix "Error" (GoBase64.Encode out)
        then Wrapper.Throw (GoBase64.Encode out)
        else Wrapper.Return (Wrapper.Buffer_from_base64 (GoBase64.Encode out))
    end.
Proof.
  intros Hn Hs Hf. cbv zeta.
  destruct r as [err|[|a rest]].
  - now rewrite (GoString_app _ _ Hn), Hf, Hs.
  - reflexivity.
  - rewrite (GoString_nul_free _ (nul_free_Encode _)).
    now rewrite Encode_cons_not_empty.
Qed.

(** X10.  [encryptPDF] on a host whose [JSON.stringify] is Node's and
    whose bound [EncryptPDF] answered the call as the loaded library
    does, for permission tokens of ASCII characters.  The buffer is then
    no longer than a C [int] counts, and pdfcpu was asked to encrypt the
    whole of it with the configuration built from the passwords (up to
    their first NUL) and the list.  The call throws the engine's error
    after "Error encrypting PDF: ", throws "Encryption returned null" for
    an empty output, throws the Base64 text itself when it happens to
    begin with "Error", and otherwise returns what [Buffer.from]
    decodes. *)
Theorem encryptPDF_end_to_end (pdfBuffer : list byte) (userPassword : string)
    (ownerPassword : option string) (permissions : option (list string)) :
  let tokens := Wrapper.default_arg [Wrapper.DEFAULT] permissions in
  let owner := Wrapper.default_arg userPassword ownerPassword in
  let size := Z.of_nat (List.length pdfBuffer) in
  let conf :=
    Native.EncryptPDF_conf (Koffi.GoString userPassword) (Koffi.GoString owner)
      tokens in
  Forall (fun t => isASCII t = true) tokens ->
  Wrapper.JSON_stringify tokens = NodeJSON.stringify tokens ->
  Koffi.answers
    (Koffi.EncryptPDF max_string pdfBuffer size userPassword owner
       (NodeJSON.stringify tokens))
    (Wrapper.EncryptPDF pdfBuffer size userPassword owner
       (NodeJSON.stringify tokens)) ->
  (size <= Koffi.INT_MAX)%Z
  /\ snd (Wrapper.encryptPDF pdfBuffer userPassword ownerPassword permissions)
     = match api_Encrypt pdfBuffer conf with
       | inl err =>
           Wrapper.Throw ("Error encrypting PDF: " ++ Koffi.GoString err)%string
       | inr [] => Wrapper.Throw "Encryption returned null"
       | inr out =>
           if String.prefix "Error" (GoBase64.Encode out)
           then Wrapper.Throw (GoBase64.Encode out)
           else Wrapper.Return (Wrapper.Buffer_from_base64 (GoBase64.Encode out))
       end.
Proof.
  cbv zeta. intros Ht Hj Ha.
  apply EncryptPDF_answers in Ha. destruct Ha as [Hreply Hle].
  split; [exact Hle|].
  rewrite encryptPDF_run. cbv zeta. rewrite Hj, Hreply.
  rewrite (GoString_nul_free _ (nul_free_stringify _)).
  unfold Native.EncryptPDF. rewrite (Unmarshal_stringify _ Ht). cbn [fst snd].
  rewrite <- (reads_outcome "Error encrypting PDF: " "Encryption returned null");
    [|reflexivity|intros tail; reflexivity|intros tail; reflexivity].
  cbv zeta.
  destruct (Wrapper.falsy _); [reflexivity|].
  destruct (Wrapper.startsWith _ _); reflexivity.
Qed.

(** X11.  [decryptPDF] on a host whose bound [DecryptPDF] answered the
    call as the loaded library does.  The buffer is then no longer than a
    C [int] counts, and the call ends as the last attempt of [DecryptPDF]
    did: when that attempt fails it throws the engine's error after
    "Error decrypting PDF: " and returns no buffer; when it succeeds it
    returns what [Buffer.from] decodes from the Base64 text of the
    output, unless the output is empty or its text begins with "Error". *)
Theorem decryptPDF_end_to_end (pdfBuffer : list byte) (password : string)
    (ownerPassword : option string) :
  let owner := Wrapper.default_arg EmptyString ownerPassword in
  let size := Z.of_nat (List.length pdfBuffer) in
  Koffi.answers
    (Koffi.DecryptPDF max_string pdfBuffer size password owner)
    (Wrapper.DecryptPDF pdfBuffer size password owner) ->
  (size <= Koffi.INT_MAX)%Z
  /\ exists before conf,
    fst (Native.DecryptPDF pdfBuffer (Koffi.GoString password) (Koffi.GoString owner))
    = before ++ [Native.Decrypt pdfBuffer conf]
    /\ snd (Wrapper.decryptPDF pdfBuffer password ownerPassword)
       = match snd (api_Decrypt pdfBuffer conf) with
         | inl err =>
             Wrapper.Throw ("Error decrypting PDF: " ++ Koffi.GoString err)%string
         | inr [] => Wrapper.Throw "Decryption returned null"
         | inr out =>
             if String.prefix "Error" (GoBase64.Encode out)
             then Wrapper.Throw (GoBase64.Encode out)
             else Wrapper.Return (Wrapper.Buffer_from_base64 (GoBase64.Encode out))
         end.
Proof.
  cbv zeta. intros Ha.
  apply DecryptPDF_answers in Ha. destruct Ha as [Hreply Hle].
  split; [exact Hle|].
  destruct (DecryptPDF_shape pdfBuffer (Koffi.GoString password)
              (Koffi.GoString (Wrapper.default_arg EmptyString ownerPassword)))
    as [before [conf [Hcalls [Htext _]]]].
  exists before, conf. split; [exact Hcalls|].
  rewrite decryptPDF_run. cbv zeta. rewrite Hreply, Htext.
  unfold Notions.result_text.
  rewrite <- (reads_outcome "Error decrypting PDF: " "Decryption returned null");
    [|reflexivity|intros tail; reflexivity|intros tail; reflexivity].
  cbv zeta.
  destruct (snd (api_Decrypt pdfBuffer conf)) as [err|out];
    (destruct (Wrapper.falsy _); [reflexivity|];
     destruct (Wrapper.startsWith _ _); reflexivity).
Qed.

End LoadedFacts.

(** * More concrete inputs *)

(** The sample engine hands the bytes back, so a buffer that begins with
    0x12 0xBA 0xE8 0xAC comes back as a text that begins with "Error", and
    the wrapper throws although the engine succeeded. *)
Example encryptPDF_misread_success :
  snd (@Wrapper.encryptPDF Sample.host
         [Byte.x12; Byte.xba; Byte.xe8; Byte.xac] "user123" None None)
  = Wrapper.Throw "ErrorA==".
Proof. reflexivity. Qed.

(** X2 at the token [copy] of the list [print; copy]. *)
Lemma buildPermissionMask_concat_witness :
  In "copy" ["print"; "copy"]
  /\ Z.land (@Notions.flag_of Sample.runtime Sample.pdfcpu "copy")
       (@Native.buildPermissionMask Sample.runtime Sample.pdfcpu ["print"; "copy"])
     = @Notions.flag_of Sample.runtime Sample.pdfcpu "copy".
Proof.
  assert (Hin : In "copy" ["print"; "copy"]) by (right; left; reflexivity).
  split; [exact Hin|].
  exact (proj2 (proj2 (proj2 (@buildPermissionMask_concat Sample.runtime Sample.pdfcpu
                                ["print"; "copy"] []))) "copy" Hin).
Defined.

(** X3 at a single token outside the vocabulary. *)
Lemma EncryptPDF_conf_overrides_witness :
  ["accessibility"] <> ([] : list string)
  /\ Forall (fun t => @Words.recognized Sample.runtime t = false) ["accessibility"]
  /\ @Native.EncryptPDF_conf Sample.runtime Sample.pdfcpu "user123" "owner123"
       ["accessibility"]
     = set_Permissions 0%Z (@NewAESConfiguration Sample.pdfcpu "user123" "owner123" 256).
Proof.
  assert (Hne : ["accessibility"] <> ([] : list string)) by discriminate.
  assert (Hf : Forall (fun t => @Words.recognized Sample.runtime t = false)
                 ["accessibility"]) by (repeat constructor).
  split; [exact Hne|]. split; [exact Hf|].
  exact (proj1 (@EncryptPDF_conf_overrides Sample.runtime Sample.pdfcpu
                  "user123" "owner123") _ Hne Hf).
Defined.

(** X5 at the user password of the sample engine: the first attempt
    succeeds, the secondary password is not looked at. *)
Lemma DecryptPDF_secondary_unused_witness :
  @Native.DecryptPDF Sample.pdfcpu Sample.sample_pdf "user123" "anything"
  = @Native.DecryptPDF Sample.pdfcpu Sample.sample_pdf "user123" "".
Proof.
  exact (proj2 (@DecryptPDF_secondary_unused Sample.pdfcpu Sample.sample_pdf "user123")
           "anything" eq_refl).
Defined.

(** X6 at an output that begins with 0x12 0xBA 0xE8 0xAC. *)
Lemma EncryptPDF_text_prefix_witness :
  N.shiftr (Byte.to_N Byte.xac) 2 = 43%N
  /\ String.prefix "Error"
       (snd (@Native.EncryptPDF Sample.runtime Sample.pdfcpu
               [Byte.x12; Byte.xba; Byte.xe8; Byte.xac] "user123" "owner123" "[]"))
     = true.
Proof.
  split; [reflexivity|].
  exact (proj2 (proj2 (proj2
           (@EncryptPDF_text_prefix Sample.runtime Sample.pdfcpu
              [Byte.x12; Byte.xba; Byte.xe8; Byte.xac] "user123" "owner123" "[]")))
           Byte.xac [] eq_refl eq_refl).
Defined.

(** X7 at a decryption with the user password of the sample engine. *)
Lemma wrapper_returns_decoded_witness :
  exists text,
    @Wrapper.DecryptPDF Sample.host Sample.sample_pdf 15%Z "user123" "" = Some text
    /\ text <> EmptyString
    /\ Wrapper.startsWith text "Error" = false
    /\ Sample.sample_pdf = @Wrapper.Buffer_from_base64 Sample.host text
    /\ In (Wrapper.Buffer_from text)
         (fst (@Wrapper.decryptPDF Sample.host Sample.sample_pdf "user123" None)).
Proof.
  exact (proj2 (@wrapper_returns_decoded Sample.host Sample.sample_pdf
                  "user123" "user123" None None Sample.sample_pdf) eq_refl).
Defined.

(** X9 at the list [print; copy]. *)
Lemma stringify_then_Unmarshal_witness :
  Forall (fun t => isASCII t = true) ["print"; "copy"]
  /\ GoJSON.Unmarshal (NodeJSON.stringify ["print"; "copy"]) = (["print"; "copy"], None).
Proof.
  assert (Hf : Forall (fun t => isASCII t = true) ["print"; "copy"])
    by (repeat constructor).
  split; [exact Hf|].
  exact (proj1 (@stringify_then_Unmarshal Sample.runtime Sample.pdfcpu
                  ["print"; "copy"] Sample.sample_pdf "user123" "owner123" Hf)).
Defined.

(** X10 at the first scenario of the test script, with strings of up to
    2^29 - 24 bytes. *)
Lemma encryptPDF_end_to_end_witness :
  Forall (fun t => isASCII t = true) ["print"; "copy"]
  /\ Sample.JSON_stringify ["print"; "copy"] = NodeJSON.stringify ["print"; "copy"]
  /\ @Koffi.EncryptPDF Sample.runtime Sample.pdfcpu 536870888 Sample.sample_pdf 15
       "user123" "owner123" (NodeJSON.stringify ["print"; "copy"])
     = Koffi.Answer "JVBERi0xLjQgc2FtcGxl"
  /\ snd (@Wrapper.encryptPDF Sample.host Sample.sample_pdf "user123"
            (Some "owner123") (Some ["print"; "copy"]))
     = Wrapper.Return Sample.sample_pdf.
Proof.
  assert (Hf : Forall (fun t => isASCII t = true) ["print"; "copy"])
    by (repeat constructor).
  split; [exact Hf|]. split; [reflexivity|]. split; [reflexivity|].
  exact (eq_trans
           (proj2 (@encryptPDF_end_to_end Sample.host Sample.runtime Sample.pdfcpu
                     536870888 Sample.sample_pdf "user123" (Some "owner123")
                     (Some ["print"; "copy"]) Hf eq_refl eq_refl))
           eq_refl).
Defined.

(** X11 at a wrong password and the owner password of the sample engine
    for secondary password. *)
Lemma decryptPDF_end_to_end_witness :
  @Koffi.DecryptPDF Sample.pdfcpu 536870888 Sample.sample_pdf 15
    "wrongpassword" "owner123"
  = Koffi.Answer "JVBERi0xLjQgc2FtcGxl"
  /\ (15 <= Koffi.INT_MAX)%Z
  /\ exists before conf,
       fst (@Native.DecryptPDF Sample.pdfcpu Sample.sample_pdf "wrongpassword" "owner123")
       = before ++ [Native.Decrypt Sample.sample_pdf conf]
       /\ UserPW conf = "owner123"
       /\ snd (@Wrapper.decryptPDF Sample.host Sample.sample_pdf "wrongpassword"
                 (Some "owner123"))
          = Wrapper.Return Sample.sample_pdf.
Proof.
  split; [reflexivity|].
  destruct (@decryptPDF_end_to_end Sample.host Sample.pdfcpu 536870888
              Sample.sample_pdf "wrongpassword" (Some "owner123") eq_refl)
    as [Hle [before [conf [Hcalls Hend]]]].
  split; [exact Hle|].
  exists before, conf. split; [exact Hcalls|].
  assert (Hconf : conf = set_OwnerPW "owner123"
                    (set_UserPW "owner123" (@NewDefaultConfiguration Sample.pdfcpu))).
  { apply (f_equal (fun l => last l (Native.Decrypt [] conf))) in Hcalls.
    rewrite last_last in Hcalls. simpl in Hcalls. now injection Hcalls. }
  split; [now rewrite Hconf|].
  rewrite Hend, Hconf. reflexivity.
Defined.
